(** * DeskAnalyse: hardware collection core (src/core/hardware_info.py)

  Shallow embedding of the multi-source acquisition and fallback-merge
  engine of [HardwareInfo]: the category collectors, the fixed-width
  table decoding of the WMIC probes, the disk type classification and the
  RAM manufacturer resolution, with the properties the specification
  states about them.

  Conventions.  A Python [str] is a [string]; the text handled here is
  ASCII command output, so one character is one code point and [lower]
  and [strip] act on the ASCII range.  A probe is represented by what its
  call produces: the value it returns or the exception it raises.  The
  floating point values ([round(x / 1024**3, 2)], [f"{x:.2f} GB"]) and
  [json.loads] are kept abstract, as the operations of a class. *)

From Stdlib Require Import ZArith Lia Ascii String DecimalString.
From stdpp Require Import base option list gmap strings.

Local Open Scope Z_scope.

(** ** Python string primitives *)

Module Py.

(** [str.isspace] on the ASCII range: TAB, LF, VT, FF, CR, FS, GS, RS, US
    and the space. *)
Definition is_space (c : ascii) : bool :=
  let n := nat_of_ascii c in
  ((9 <=? n) && (n <=? 13) || (28 <=? n) && (n <=? 32))%nat.

Fixpoint lstrip (s : string) : string :=
  match s with
  | EmptyString => EmptyString
  | String c s' => if is_space c then lstrip s' else s
  end.

Fixpoint rstrip (s : string) : string :=
  match s with
  | EmptyString => EmptyString
  | String c s' =>
      match rstrip s' with
      | EmptyString => if is_space c then EmptyString else String c EmptyString
      | r => String c r
      end
  end.

(** [s.strip()] *)
Definition strip (s : string) : string := rstrip (lstrip s).

Definition lower_char (c : ascii) : ascii :=
  let n := nat_of_ascii c in
  if ((65 <=? n) && (n <=? 90))%nat then ascii_of_nat (n + 32) else c.

(** [s.lower()] *)
Fixpoint lower (s : string) : string :=
  match s with
  | EmptyString => EmptyString
  | String c s' => String (lower_char c) (lower s')
  end.

(** [needle in hay] *)
Definition contains (needle hay : string) : bool :=
  match String.index 0 needle hay with Some _ => true | None => false end.

(** [hay.find(needle)]: the first offset, or -1. *)
Definition find (needle hay : string) : Z :=
  match String.index 0 needle hay with
  | Some n => Z.of_nat n
  | None => -1
  end.

(** [s[i:j]] for offsets that are not negative. *)
Definition slice (s : string) (i j : Z) : string :=
  String.substring (Z.to_nat i) (Z.to_nat j - Z.to_nat i) s.

(** [len(s)] *)
Definition len (s : string) : Z := Z.of_nat (String.length s).

(** [s.split("\n")] *)
Fixpoint split_lines (s : string) : list string :=
  match s with
  | EmptyString => [EmptyString]
  | String c s' =>
      if Ascii.eqb c "010"%char then EmptyString :: split_lines s'
      else match split_lines s' with
           | l :: ls => String c l :: ls
           | [] => [String c EmptyString]
           end
  end.

(** Truthiness of a [str]. *)
Definition truthy (s : string) : bool := negb (String.eqb s "").

(** [str(n)] for a length. *)
Definition str_of_nat (n : nat) : string :=
  NilZero.string_of_uint (Nat.to_uint n).

Definition digit (c : ascii) : option Z :=
  let n := nat_of_ascii c in
  if ((48 <=? n) && (n <=? 57))%nat then Some (Z.of_nat n - 48) else None.

(** The digits of an [int] literal: decimal digits, a single underscore
    allowed between two digits.  [prev] tells whether the character just
    read was a digit. *)
Fixpoint digits (s : string) (acc : Z) (prev : bool) : option Z :=
  match s with
  | EmptyString => if prev then Some acc else None
  | String c s' =>
      match digit c with
      | Some d => digits s' (10 * acc + d) true
      | None =>
          if Ascii.eqb c "_"%char && prev then
            match s' with
            | String c' _ =>
                match digit c' with
                | Some _ => digits s' acc false
                | None => None
                end
            | EmptyString => None
            end
          else None
      end
  end.

(** [int(s)] for a [str]: surrounding white space, an optional sign, the
    digits; [None] stands for [ValueError]. *)
Definition int (s : string) : option Z :=
  match strip s with
  | String "+" r => digits r 0 false
  | String "-" r => Z.opp <$> digits r 0 false
  | t => digits t 0 false
  end.

(** The order of [(int, str)] tuples. *)
Definition tuple_leb (a b : Z * string) : bool :=
  (a.1 <? b.1) || ((a.1 =? b.1) && String.leb a.2 b.2).

Fixpoint insert_sorted (a : Z * string) (l : list (Z * string))
  : list (Z * string) :=
  match l with
  | [] => [a]
  | b :: l' => if tuple_leb a b then a :: l else b :: insert_sorted a l'
  end.

(** [sorted(l)] on a list of [(int, str)] tuples (stable). *)
Definition sorted (l : list (Z * string)) : list (Z * string) :=
  foldr insert_sorted [] l.

(** [s.startswith(p)] *)
Definition startswith (p s : string) : bool := String.prefix p s.

(** [s.split(":", 1)[1]]: what follows the first colon.  [None] stands for
    the [IndexError] of a text without a colon. *)
Fixpoint after_colon (s : string) : option string :=
  match s with
  | EmptyString => None
  | String c s' => if Ascii.eqb c ":"%char then Some s' else after_colon s'
  end.

(** [s.split(sep)] for a separator that is not empty, read from the left;
    [skip] counts the characters of a separator still to be passed. *)
Fixpoint split_from (sep : string) (skip : nat) (s : string) : list string :=
  match s with
  | EmptyString => [EmptyString]
  | String c s' =>
      match skip with
      | S k => split_from sep k s'
      | O =>
          if String.prefix sep s
          then EmptyString :: split_from sep (String.length sep - 1) s'
          else match split_from sep 0 s' with
               | part :: parts => String c part :: parts
               | [] => [String c EmptyString]
               end
      end
  end.

Definition split (sep s : string) : list string := split_from sep 0 s.

(** [s.replace(old, new)] for an [old] that is not empty. *)
Fixpoint replace_from (old new : string) (skip : nat) (s : string) : string :=
  match s with
  | EmptyString => EmptyString
  | String c s' =>
      match skip with
      | S k => replace_from old new k s'
      | O =>
          if String.prefix old s
          then new +:+ replace_from old new (String.length old - 1) s'
          else String c (replace_from old new 0 s')
      end
  end.

Definition replace (old new s : string) : string := replace_from old new 0 s.

End Py.

(** ** The unavailable marker and probe outcomes *)

Definition ND : string := "Não disponível".

(** [value and value != "Não disponível"] *)
Definition resolved (value : string) : bool :=
  Py.truthy value && negb (String.eqb value ND).

(** The exceptions the probes meet. *)
Inductive exn : Type :=
| FileNotFoundError      (* the process could not be launched *)
| CalledProcessError     (* non-zero exit status *)
| TimeoutExpired
| UnicodeDecodeError     (* undecodable output *)
| ValueError
| TypeError
| AttributeError.

(** What a call produces: its value, or the exception it raises. *)
Inductive outcome (A : Type) : Type :=
| Returned (a : A)
| Raised (e : exn).
Arguments Returned {A} a.
Arguments Raised {A} e.

#[global] Instance outcome_ret : MRet outcome := fun _ a => Returned a.
#[global] Instance outcome_bind : MBind outcome := fun _ _ k m =>
  match m with
  | Returned a => k a
  | Raised e => Raised e
  end.

(** ** Scalar categories: the field merge of the collectors *)

Module Scalar.

(** A category record and a probe's record: a [dict] from field name to
    text. *)
Abbreviation record := (gmap string string).

(** [if value and value != "Não disponível": result[key] = value] *)
Definition update_field (result : record) (kv : string * string) : record :=
  if resolved kv.2 then <[kv.1 := kv.2]> result else result.

(** [for key, value in method_result.items(): ...] *)
Definition update_fields (result method_result : record) : record :=
  foldl update_field result (map_to_list method_result).

(** [all(value != "Não disponível" for value in result.values())] *)
Definition all_resolved (result : record) : bool :=
  bool_decide (map_Forall (fun _ value => value <> ND) result).

(** [if method_result:] *)
Definition truthy (method_result : record) : bool :=
  negb (bool_decide (method_result = ∅)).

(** The loop over [methods]; the flag tells whether it ended by [break].
    A probe that raises is reported and the loop goes on. *)
Fixpoint run (result : record) (methods : list (outcome record))
  : record * bool :=
  match methods with
  | [] => (result, false)
  | Raised _ :: rest => run result rest
  | Returned method_result :: rest =>
      if truthy method_result then
        let result' := update_fields result method_result in
        if all_resolved result' then (result', true) else run result' rest
      else run result rest
  end.

Definition collect (schema : record) (methods : list (outcome record))
  : record :=
  (run schema methods).1.

Definition motherboard_schema : record :=
  {[ "manufacturer" := ND; "model" := ND; "serial_number" := ND ]}.
Definition cpu_schema : record :=
  {[ "brand" := ND; "model" := ND ]}.
Definition tpm_schema : record :=
  {[ "version" := ND; "status" := ND; "manufacturer" := ND ]}.
Definition bluetooth_schema : record :=
  {[ "device_name" := ND; "device_status" := ND ]}.
Definition wifi_schema : record :=
  {[ "adapter_name" := ND; "adapter_status" := ND; "connected_ssid" := ND ]}.

Definition get_motherboard_info := collect motherboard_schema.
Definition get_cpu_info := collect cpu_schema.
Definition get_tpm_info := collect tpm_schema.
Definition get_bluetooth_info := collect bluetooth_schema.
Definition get_wifi_info := collect wifi_schema.




End Scalar.

(** ** The fixed-width table decoding of the WMIC probes *)

Module Tabular.

(** [for i, (index, key) in enumerate(indices)]: the columns of one row, in
    the order of [indices].  A negative offset is skipped; a column ends at
    the offset of the next entry of [indices] when that one is present, at
    the end of the line otherwise. *)
Fixpoint columns (indices : list (Z * string)) (line : string)
  : list (string * string) :=
  match indices with
  | [] => []
  | (index, key) :: rest =>
      if index <? 0 then columns rest line
      else
        let end_index :=
          match rest with
          | (next, _) :: _ => if 0 <=? next then next else Py.len line
          | [] => Py.len line
          end in
        (key, Py.strip (Py.slice line index end_index)) :: columns rest line
  end.

(** The offsets of the requested columns: [header.lower().find(keyword)]
    for each [(keyword, key)], sorted. *)
Definition locate (header : string) (wanted : list (string * string))
  : list (Z * string) :=
  Py.sorted (map (fun w => (Py.find w.1 (Py.lower header), w.2)) wanted).

(** [module_data = {}; ...; module_data[key] = value] *)
Definition row_dict (indices : list (Z * string)) (line : string)
  : gmap string string :=
  foldl (fun d kv => <[kv.1 := kv.2]> d) ∅ (columns indices line).

End Tabular.

(** ** Motherboard: the WMIC probe *)

Module Motherboard.

(** [if value: result[key] = value] over the columns of the row. *)
Definition fill (result : Scalar.record) (cols : list (string * string))
  : Scalar.record :=
  foldl (fun r kv => if Py.truthy kv.2 then <[kv.1 := kv.2]> r else r)
        result cols.

(** The body of [_get_motherboard_info_wmic] once [check_output] has
    returned [output]. *)
Definition parse (result : Scalar.record) (output : string) : Scalar.record :=
  match Py.split_lines (Py.strip output) with
  | header :: row :: _ =>
      let indices :=
        Tabular.locate header
          [("manufacturer", "manufacturer"); ("product", "model");
           ("serialnumber", "serial_number")] in
      let line := Py.strip row in
      fill result (Tabular.columns indices line)
  | _ => result
  end.

(** [_get_motherboard_info_wmic]; [check_output] is what
    [subprocess.check_output(["wmic", "baseboard", ...])] produces. *)
Definition _get_motherboard_info_wmic (is_windows : bool)
    (check_output : outcome string) : Scalar.record :=
  let result := Scalar.motherboard_schema in
  if negb is_windows then result
  else match check_output with
       | Returned output => parse result output
       | Raised _ => result
       end.

End Motherboard.


(** ** Values kept abstract: JSON text and floating point *)

(** A decoded JSON document (numbers are the integers the queried
    properties hold). *)
Unset Elimination Schemes.
Inductive json : Type :=
| JNull
| JBool (b : bool)
| JNum (n : Z)
| JStr (s : string)
| JArr (elements : list json)
| JObj (fields : list (string * json)).
Set Elimination Schemes.

(** The operations of the Python runtime that are not unfolded here. *)
Class Runtime : Type := {
  float : Type;
  gib : Z -> float;                 (* round(n / (1024**3), 2) *)
  fzero : float;                    (* the accumulator 0 *)
  fadd : float -> float -> float;   (* acc + x *)
  fpos : float -> bool;             (* x > 0 *)
  fmt2 : float -> string;           (* f"{x:.2f}" *)
  fstr : float -> string;           (* f"{x}" *)
  jstr : json -> string;            (* f"{v}" for a decoded JSON value *)
  loads : string -> option json     (* json.loads; None is JSONDecodeError *)
}.

(** ** Disks *)

Module Disk.

Record disk : Type := {
  model : string;
  type : string;
  size : string;
  free_space : string
}.

(** [hasattr(disk, a) and disk.a]: an attribute of a WMI object counts
    when it is present and truthy.  The argument is [None] when the
    attribute is absent or [None]. *)
Definition present (attribute : option string) : option string :=
  match attribute with
  | Some text => if Py.truthy text then Some text else None
  | None => None
  end.

(** The type inference of [_get_disk_info_wmi]. *)
Definition wmi_disk_type (MediaType Model : option string) : string :=
  match present MediaType with
  | Some media_type =>
      let media_type_str := Py.lower media_type in
      if Py.contains "ssd" media_type_str
         || Py.contains "solid state" media_type_str then "SSD"
      else if Py.contains "nvme" media_type_str then "NVMe"
      else "HDD"
  | None =>
      match present Model with
      | Some m =>
          if Py.contains "ssd" (Py.lower m) || Py.contains "nvme" (Py.lower m)
          then if Py.contains "nvme" (Py.lower m) then "NVMe" else "SSD"
          else "HDD"
      | None => "HDD"
      end
  end.

(** The type inference of [_get_disk_info_wmic], from the [mediatype] and
    [model] columns of the row. *)
Definition wmic_disk_type (mediatype model : string) : string :=
  let disk_type := "HDD" in
  let media_type := Py.lower mediatype in
  let model := Py.lower model in
  let disk_type :=
    if Py.contains "ssd" media_type || Py.contains "solid state" media_type
       || Py.contains "ssd" model then "SSD" else disk_type in
  if Py.contains "nvme" media_type || Py.contains "nvme" model then "NVMe"
  else disk_type.

(** [int(data.get(key, 0))] on a row; [None] is [ValueError]. *)
Definition int_field (data : gmap string string) (key : string) : option Z :=
  match data !! key with
  | Some text => Py.int text
  | None => Some 0
  end.

Section Wmic.
Context `{Runtime}.

(** One row of [wmic diskdrive get model,size,mediatype]; [None] when the
    row is given up ([except (ValueError, IndexError): continue]). *)
Definition disk_of_row (indices : list (Z * string)) (line : string)
  : option disk :=
  let disk_data := Tabular.row_dict indices line in
  n ← int_field disk_data "size";
  let size_gb := gib n in
  Some {| model := default ND (disk_data !! "model");
          type := wmic_disk_type (default "" (disk_data !! "mediatype"))
                                 (default "" (disk_data !! "model"));
          size := fmt2 size_gb +:+ " GB";
          free_space := ND |}.

(** The loop over [lines[1:]]: blank rows and rows given up are skipped. *)
Fixpoint disks_of_rows (indices : list (Z * string)) (lines : list string)
  : list disk :=
  match lines with
  | [] => []
  | line :: rest =>
      if negb (Py.truthy (Py.strip line)) then disks_of_rows indices rest
      else match disk_of_row indices line with
           | Some d => d :: disks_of_rows indices rest
           | None => disks_of_rows indices rest
           end
  end.

Definition parse_disks (model_output : string) : list disk :=
  match Py.split_lines (Py.strip model_output) with
  | header :: rows =>
      disks_of_rows
        (Tabular.locate header
           [("mediatype", "mediatype"); ("model", "model"); ("size", "size")])
        rows
  | [] => []
  end.

(** The sum of the free space of the rows of
    [wmic logicaldisk where drivetype=3 get deviceid,freespace,size]. *)
Fixpoint sum_free_space (indices : list (Z * string)) (lines : list string)
    (total_free_space_gb : float) : float :=
  match lines with
  | [] => total_free_space_gb
  | logical_line :: rest =>
      if negb (Py.truthy (Py.strip logical_line))
      then sum_free_space indices rest total_free_space_gb
      else match int_field (Tabular.row_dict indices logical_line)
                   "freespace" with
           | Some n =>
               sum_free_space indices rest (fadd total_free_space_gb (gib n))
           | None => sum_free_space indices rest total_free_space_gb
           end
  end.

Definition total_free_space (logical_output : string) : float :=
  match Py.split_lines (Py.strip logical_output) with
  | logical_header :: rows =>
      sum_free_space
        (Tabular.locate logical_header
           [("deviceid", "deviceid"); ("freespace", "freespace");
            ("size", "size")])
        rows fzero
  | [] => fzero
  end.

(** [if result and total_free_space_gb > 0:
       result[0]["free_space"] = f"{total_free_space_gb:.2f} GB"] *)
Definition assign_free_space (result : list disk)
    (total_free_space_gb : float) : list disk :=
  match result with
  | first :: others =>
      if fpos total_free_space_gb then
        {| model := model first; type := type first; size := size first;
           free_space := fmt2 total_free_space_gb +:+ " GB" |} :: others
      else result
  | [] => result
  end.

(** [_get_disk_info_wmic]; the two arguments are what the two
    [subprocess.check_output] calls produce.  The second call has a [try]
    of its own. *)
Definition _get_disk_info_wmic (is_windows : bool)
    (model_output logical_output : outcome string) : list disk :=
  if negb is_windows then []
  else match model_output with
       | Raised _ => []
       | Returned model_text =>
           let result := parse_disks model_text in
           match logical_output with
           | Raised _ => result
           | Returned logical_text =>
               assign_free_space result (total_free_space logical_text)
           end
       end.

End Wmic.

(** The inner loops of [get_disk_info] for one reported disk: the first
    entry with the same model takes the free space and the type it lacks;
    without such an entry the disk is appended. *)
Fixpoint merge_disk (all_disks : list disk) (d : disk) : list disk :=
  match all_disks with
  | [] => [d]
  | existing_disk :: rest =>
      if String.eqb (model existing_disk) (model d) then
        {| model := model existing_disk;
           type :=
             if negb (String.eqb (type d) ND)
                && String.eqb (type existing_disk) ND
             then type d else type existing_disk;
           size := size existing_disk;
           free_space :=
             if negb (String.eqb (free_space d) ND)
                && String.eqb (free_space existing_disk) ND
             then free_space d else free_space existing_disk |} :: rest
      else existing_disk :: merge_disk rest d
  end.

(** A matched entry after the merge: it keeps its model and size and
    takes the type and the free space of the reported disk where its own
    are unavailable. *)
Definition gain (existing_disk d : disk) : disk :=
  {| model := model existing_disk;
     type := if String.eqb (type existing_disk) ND then type d
             else type existing_disk;
     size := size existing_disk;
     free_space := if String.eqb (free_space existing_disk) ND
                   then free_space d else free_space existing_disk |}.

(** [get_disk_info] over what its probes produce. *)
Definition get_disk_info (methods : list (outcome (list disk))) : list disk :=
  foldl (fun all_disks method =>
           match method with
           | Returned result => foldl merge_disk all_disks result
           | Raised _ => all_disks
           end) [] methods.

(** The two fields that [get_disk_info] merges into a matched entry. *)
Inductive merged_field : Type := DiskType | FreeSpace.

Definition field_of (j : merged_field) (d : disk) : string :=
  match j with
  | DiskType => type d
  | FreeSpace => free_space d
  end.

End Disk.

(** ** Video adapters *)

Module Gpu.

Record gpu : Type := { model : string }.

Fixpoint merge_gpu (result : list gpu) (g : gpu) : list gpu :=
  match result with
  | [] => [g]
  | existing_gpu :: rest =>
      if String.eqb (model existing_gpu) (model g) then result
      else existing_gpu :: merge_gpu rest g
  end.

(** [get_gpu_info] over what its probes produce. *)
Definition get_gpu_info (methods : list (outcome (list gpu))) : list gpu :=
  foldl (fun result method =>
           match method with
           | Returned method_result => foldl merge_gpu result method_result
           | Raised _ => result
           end) [] methods.

End Gpu.

(** ** Memory *)

Module Ram.

Record ram_module : Type := {
  size : string;
  manufacturer : string;
  location : string;
  speed : string
}.

(** The record of the RAM category and of each of its probes: the keys
    [total], [slots_used] and [modules]. *)
Record ram_info : Type := {
  total : string;
  slots_used : string;
  modules : list ram_module
}.

Definition NI : string := "Não identificado".

Definition generic_placeholders : list string :=
  ["unknown"; "not specified"; "0000"; "to be filled by o.e.m."].

(** [not manufacturer or manufacturer.lower() in [...]] *)
Definition unidentified (manufacturer : string) : bool :=
  negb (Py.truthy manufacturer)
  || bool_decide (Py.lower manufacturer ∈ generic_placeholders).

(** The [if]/[elif] chain on the part number. *)
Definition by_part_number (part_number : string) : string :=
  let has := fun s => Py.contains s part_number in
  if has "KHX" || has "HX" then "Kingston"
  else if has "CMK" || has "CMW" || has "CM" then "Corsair"
  else if has "F4" && has "G" then "G.Skill"
  else if has "BLS" || has "CT" then "Crucial"
  else if has "AX4U" then "ADATA XPG"
  else if has "M378" then "Samsung"
  else if has "HMA" || has "HMP" then "Hynix"
  else if has "PVS" then "Patriot Viper"
  else if has "TED4" then "Teamgroup Elite"
  else NI.

(** The manufacturer of a module, from the trimmed [Manufacturer] and
    [PartNumber] texts (lines 486-516). *)
Definition resolve_manufacturer (manufacturer part_number : string) : string :=
  let manufacturer :=
    if unidentified manufacturer then
      if Py.truthy part_number then by_part_number part_number
      else manufacturer
    else manufacturer in
  if unidentified manufacturer then NI else manufacturer.

(** The pattern table as the specification describes it: an ordered list
    of one substring and the name it stands for, with the substrings and
    the order of the [if]/[elif] chain. *)
Definition pattern_table : list (string * string) :=
  [("KHX", "Kingston"); ("HX", "Kingston");
   ("CMK", "Corsair"); ("CMW", "Corsair"); ("CM", "Corsair");
   ("F4", "G.Skill"); ("G", "G.Skill");
   ("BLS", "Crucial"); ("CT", "Crucial");
   ("AX4U", "ADATA XPG"); ("M378", "Samsung");
   ("HMA", "Hynix"); ("HMP", "Hynix");
   ("PVS", "Patriot Viper"); ("TED4", "Teamgroup Elite")].

(** The scan the specification describes: the name of the first pattern
    that appears in the part number. *)
Fixpoint first_match (table : list (string * string)) (part_number : string)
  : string :=
  match table with
  | [] => NI
  | (pattern, name) :: rest =>
      if Py.contains pattern part_number then name
      else first_match rest part_number
  end.

(** The rules of the chain as data: a rule holds alternatives, and an
    alternative holds the substrings that must all appear. *)
Definition rules : list (list (list string) * string) :=
  [([["KHX"]; ["HX"]], "Kingston");
   ([["CMK"]; ["CMW"]; ["CM"]], "Corsair");
   ([["F4"; "G"]], "G.Skill");
   ([["BLS"]; ["CT"]], "Crucial");
   ([["AX4U"]], "ADATA XPG");
   ([["M378"]], "Samsung");
   ([["HMA"]; ["HMP"]], "Hynix");
   ([["PVS"]], "Patriot Viper");
   ([["TED4"]], "Teamgroup Elite")].

Definition rule_matches (alternatives : list (list string))
    (part_number : string) : bool :=
  existsb (forallb (fun s => Py.contains s part_number)) alternatives.

Fixpoint first_rule (rs : list (list (list string) * string))
    (part_number : string) : string :=
  match rs with
  | [] => NI
  | (alternatives, name) :: rest =>
      if rule_matches alternatives part_number then name
      else first_rule rest part_number
  end.

(** [module.get(key, default)] on a decoded object; the last binding of a
    repeated key is the one [json.loads] keeps. *)
Definition get (fields : list (string * json)) (key : string) (default : json)
  : json :=
  foldl (fun found kv => if String.eqb kv.1 key then kv.2 else found)
        default fields.

(** [module.get]: only an object has the method. *)
Definition as_object (module : json) : outcome (list (string * json)) :=
  match module with
  | JObj fields => Returned fields
  | _ => Raised AttributeError
  end.

(** [v.strip()]: only a [str] has the method. *)
Definition str_strip (v : json) : outcome string :=
  match v with
  | JStr s => Returned (Py.strip s)
  | _ => Raised AttributeError
  end.

(** [int(v)] *)
Definition to_int (v : json) : outcome Z :=
  match v with
  | JNum n => Returned n
  | JBool b => Returned (if b then 1 else 0)
  | JStr s => match Py.int s with
              | Some n => Returned n
              | None => Raised ValueError
              end
  | _ => Raised TypeError
  end.

Section Cim.
Context `{Runtime}.

(** The body of the loop over the decoded modules: the size of the module
    and its record. *)
Definition cim_module (module : json) : outcome (float * ram_module) :=
  fields ← as_object module;
  capacity ← to_int (get fields "Capacity" (JNum 0));
  let size_gb := gib capacity in
  manufacturer ← str_strip (get fields "Manufacturer" (JStr ""));
  part_number ← (if unidentified manufacturer
                 then str_strip (get fields "PartNumber" (JStr ""))
                 else Returned "");
  let manufacturer := resolve_manufacturer manufacturer part_number in
  bank ← str_strip (get fields "BankLabel" (JStr ""));
  bank_label ← (if Py.truthy bank then Returned bank
                else str_strip (get fields "DeviceLocator" (JStr "")));
  Returned (size_gb,
            {| size := fstr size_gb +:+ " GB";
               manufacturer := manufacturer;
               location := bank_label;
               speed := jstr (get fields "Speed" (JNum 0)) +:+ " MHz" |}).

Fixpoint cim_modules (data : list json) : outcome (list (float * ram_module)) :=
  match data with
  | [] => Returned []
  | module :: rest =>
      m ← cim_module module;
      ms ← cim_modules rest;
      Returned (m :: ms)
  end.

Definition unavailable : ram_info :=
  {| total := ND; slots_used := ND; modules := [] |}.

(** [_get_ram_info_powershell_cim]; [process] is what [Popen] and
    [communicate] produce: the exit status and the standard output, or an
    exception (launch failure, timeout). *)
Definition _get_ram_info_powershell_cim (is_windows : bool)
    (process : outcome (Z * string)) : ram_info :=
  let result := unavailable in
  if negb is_windows then result
  else match process with
       | Raised _ => result
       | Returned (returncode, stdout) =>
           if (returncode =? 0) && Py.truthy (Py.strip stdout) then
             match loads stdout with
             | None => result
             | Some data =>
                 let data := match data with JArr l => l | _ => [data] end in
                 match cim_modules data with
                 | Raised _ => result
                 | Returned ms =>
                     let total_memory_gb := foldl fadd fzero ms.*1 in
                     let modules := ms.*2 in
                     let total :=
                       if fpos total_memory_gb
                       then fmt2 total_memory_gb +:+ " GB" else total result in
                     match modules with
                     | [] => {| total := total;
                                slots_used := slots_used result;
                                modules := Ram.modules result |}
                     | _ => {| total := total;
                               slots_used := Py.str_of_nat (length modules);
                               modules := modules |}
                     end
                 end
             end
           else result
       end.

End Cim.

(** The inner loop of [get_ram_info]: a non-empty module list replaces the
    list held, a resolved text replaces the text held. *)
Definition update (result method_result : ram_info) : ram_info :=
  {| total := if resolved (total method_result)
              then total method_result else total result;
     slots_used := if resolved (slots_used method_result)
                   then slots_used method_result else slots_used result;
     modules := match modules method_result with
                | [] => modules result
                | value => value
                end |}.

(** The [break] test of [get_ram_info]. *)
Definition complete (result : ram_info) : bool :=
  negb (String.eqb (total result) ND)
  && negb (String.eqb (slots_used result) ND)
  && match modules result with [] => false | _ => true end.

Fixpoint run (result : ram_info) (methods : list (outcome ram_info))
  : ram_info * bool :=
  match methods with
  | [] => (result, false)
  | Raised _ :: rest => run result rest
  | Returned method_result :: rest =>
      let result' := update result method_result in
      if complete result' then (result', true) else run result' rest
  end.

Definition initial : ram_info :=
  {| total := ND; slots_used := ND; modules := [] |}.

(** [get_ram_info] over what its probes produce. *)
Definition get_ram_info (methods : list (outcome ram_info)) : ram_info :=
  (run initial methods).1.

(** The two text fields of the RAM summary. *)
Inductive summary_field : Type := Total | SlotsUsed.

Definition field_of (k : summary_field) (r : ram_info) : string :=
  match k with
  | Total => total r
  | SlotsUsed => slots_used r
  end.

(** Whether calling a probe yields a non-empty module list. *)
Definition has_modules (method : outcome ram_info) : bool :=
  match method with
  | Returned method_result =>
      match modules method_result with [] => false | _ => true end
  | Raised _ => false
  end.

End Ram.

(** ** Further probes *)

(** *** Video adapters: the WMIC and PowerShell probes *)

Module GpuProbes.

(** The loop over [lines[1:]]: a row that is not blank gives an adapter
    whose model is the trimmed row. *)
Fixpoint gpus_of_rows (lines : list string) : list Gpu.gpu :=
  match lines with
  | [] => []
  | line :: rest =>
      let model := Py.strip line in
      if Py.truthy model then {| Gpu.model := model |} :: gpus_of_rows rest
      else gpus_of_rows rest
  end.

(** [_get_gpu_info_wmic]; [check_output] is what
    [subprocess.check_output(["wmic", "path", "win32_videocontroller", ...])]
    produces. *)
Definition _get_gpu_info_wmic (is_windows : bool)
    (check_output : outcome string) : list Gpu.gpu :=
  if negb is_windows then []
  else match check_output with
       | Raised _ => []
       | Returned output =>
           gpus_of_rows (tail (Py.split_lines (Py.strip output)))
       end.

(** The loop over the decoded adapters.  [result] is appended to in place,
    so an exception in the loop ([get] on a value that is no object,
    [strip] on a value that is no text) leaves what was appended. *)
Fixpoint gpus_of_json (data : list json) : list Gpu.gpu :=
  match data with
  | [] => []
  | gpu :: rest =>
      match fields ← Ram.as_object gpu;
            Ram.str_strip (Ram.get fields "Name" (JStr "")) with
      | Returned model =>
          if Py.truthy model then {| Gpu.model := model |} :: gpus_of_json rest
          else gpus_of_json rest
      | Raised _ => []
      end
  end.

(** [_get_gpu_info_powershell]; [process] is what [Popen] and
    [communicate] produce. *)
Definition _get_gpu_info_powershell `{Runtime} (is_windows : bool)
    (process : outcome (Z * string)) : list Gpu.gpu :=
  if negb is_windows then []
  else match process with
       | Raised _ => []
       | Returned (returncode, stdout) =>
           if (returncode =? 0) && Py.truthy (Py.strip stdout) then
             match loads stdout with
             | None => []
             | Some data =>
                 gpus_of_json (match data with JArr l => l | _ => [data] end)
             end
           else []
       end.

End GpuProbes.

(** *** Processor: the name split and the cpuinfo, WMIC and registry probes *)

Module CpuProbes.

(** The brand and the model out of the full name (lines 274-282, and the
    same in the other three probes). *)
Definition split_name (result : Scalar.record) (full_name : string)
  : Scalar.record :=
  if Py.contains "Intel" full_name then
    <["model" := Py.strip (Py.replace "Intel" "" full_name)]>
      (<["brand" := "Intel"]> result)
  else if Py.contains "AMD" full_name then
    <["model" := Py.strip (Py.replace "AMD" "" full_name)]>
      (<["brand" := "AMD"]> result)
  else <["model" := full_name]> result.

(** [_get_cpu_info_cpuinfo]; [cpuinfo] tells whether the library was
    imported, [get_cpu_info] is what its call produces. *)
Definition _get_cpu_info_cpuinfo (cpuinfo : bool)
    (get_cpu_info : outcome (gmap string string)) : Scalar.record :=
  let result := Scalar.cpu_schema in
  if negb cpuinfo then result
  else match get_cpu_info with
       | Raised _ => result
       | Returned info =>
           match info !! "brand_raw" with
           | Some full_name =>
               if Py.truthy full_name then split_name result full_name
               else result
           | None => result
           end
       end.

(** [_get_cpu_info_wmic] *)
Definition _get_cpu_info_wmic (is_windows : bool)
    (check_output : outcome string) : Scalar.record :=
  let result := Scalar.cpu_schema in
  if negb is_windows then result
  else match check_output with
       | Raised _ => result
       | Returned output =>
           match Py.split_lines (Py.strip output) with
           | _ :: row :: _ => split_name result (Py.strip row)
           | _ => result
           end
       end.

(** The body of the loop of [_get_cpu_info_registry]. *)
Definition registry_line (result : Scalar.record) (line : string)
  : Scalar.record :=
  if Py.contains "ProcessorNameString" line && Py.contains "REG_SZ" line then
    match Py.split "REG_SZ" line with
    | _ :: value :: _ => split_name result (Py.strip value)
    | _ => result
    end
  else result.

(** [_get_cpu_info_registry]; [winreg] tells whether the module was
    imported. *)
Definition _get_cpu_info_registry (is_windows winreg : bool)
    (check_output : outcome string) : Scalar.record :=
  let result := Scalar.cpu_schema in
  if negb is_windows || negb winreg then result
  else match check_output with
       | Raised _ => result
       | Returned output =>
           foldl registry_line result (Py.split_lines (Py.strip output))
       end.

End CpuProbes.

(** *** Motherboard: the registry probe *)

Module Registry.

(** The body of the loop of [_get_motherboard_info_registry]. *)
Definition registry_line (result : Scalar.record) (line : string)
  : Scalar.record :=
  if Py.contains "BaseBoardManufacturer" line && Py.contains "REG_SZ" line then
    match Py.split "REG_SZ" line with
    | _ :: value :: _ => <["manufacturer" := Py.strip value]> result
    | _ => result
    end
  else if Py.contains "BaseBoardProduct" line && Py.contains "REG_SZ" line then
    match Py.split "REG_SZ" line with
    | _ :: value :: _ => <["model" := Py.strip value]> result
    | _ => result
    end
  else result.


End Registry.

(** *** Memory: the WMIC and psutil probes *)

Module RamProbes.
Section Probes.
Context `{Runtime}.

(** One row of [wmic memorychip get ...]: the size of the module and its
    record; [None] when the row is given up
    ([except (ValueError, IndexError): continue]). *)
Definition wmic_module (indices : list (Z * string)) (line : string)
  : option (float * Ram.ram_module) :=
  let module_data := Tabular.row_dict indices line in
  capacity ← Disk.int_field module_data "capacity";
  let size_gb := gib capacity in
  let manufacturer := default ND (module_data !! "manufacturer") in
  let manufacturer :=
    if bool_decide (Py.lower manufacturer ∈ Ram.generic_placeholders)
    then Ram.NI else manufacturer in
  let location := default ND (module_data !! "banklabel") in
  let location :=
    if String.eqb location ND
    then default ND (module_data !! "devicelocator") else location in
  Some (size_gb,
        {| Ram.size := fstr size_gb +:+ " GB";
           Ram.manufacturer := manufacturer;
           Ram.location := location;
           Ram.speed := default "0" (module_data !! "speed") +:+ " MHz" |}).

(** The loop over [lines[1:]]. *)
Fixpoint wmic_modules (indices : list (Z * string)) (lines : list string)
  : list (float * Ram.ram_module) :=
  match lines with
  | [] => []
  | line :: rest =>
      if negb (Py.truthy (Py.strip line)) then wmic_modules indices rest
      else match wmic_module indices line with
           | Some m => m :: wmic_modules indices rest
           | None => wmic_modules indices rest
           end
  end.

(** [if total_memory_gb > 0: ...; if modules: ...] *)
Definition summary (ms : list (float * Ram.ram_module)) : Ram.ram_info :=
  let total_memory_gb := foldl fadd fzero ms.*1 in
  let modules := ms.*2 in
  {| Ram.total := if fpos total_memory_gb
                  then fmt2 total_memory_gb +:+ " GB" else ND;
     Ram.slots_used := match modules with
                       | [] => ND
                       | _ => Py.str_of_nat (length modules)
                       end;
     Ram.modules := modules |}.

(** [_get_ram_info_wmic] *)
Definition _get_ram_info_wmic (is_windows : bool)
    (check_output : outcome string) : Ram.ram_info :=
  if negb is_windows then Ram.unavailable
  else match check_output with
       | Raised _ => Ram.unavailable
       | Returned output =>
           match Py.split_lines (Py.strip output) with
           | header :: rows =>
               summary
                 (wmic_modules
                    (Tabular.locate header
                       [("banklabel", "banklabel"); ("capacity", "capacity");
                        ("devicelocator", "devicelocator");
                        ("manufacturer", "manufacturer"); ("speed", "speed")])
                    rows)
           | [] => Ram.unavailable
           end
       end.

(** [_get_ram_info_psutil]; [psutil] tells whether the library was
    imported, [virtual_memory] is the [total] of what its call produces. *)
Definition _get_ram_info_psutil (psutil : bool) (virtual_memory : outcome Z)
  : Ram.ram_info :=
  if negb psutil then Ram.unavailable
  else match virtual_memory with
       | Raised _ => Ram.unavailable
       | Returned total =>
           {| Ram.total := fmt2 (gib total) +:+ " GB";
              Ram.slots_used := ND;
              Ram.modules := [] |}
       end.

End Probes.
End RamProbes.

(** *** Disks: the psutil probe *)

Module DiskProbes.
Section Probes.
Context `{Runtime}.

(** The loop over the partitions: a partition whose [disk_usage] raises is
    reported and skipped.  A partition is its device and what
    [disk_usage(mountpoint)] produces, the total and the free bytes. *)
Fixpoint disks_of_partitions (partitions : list (string * outcome (Z * Z)))
  : list Disk.disk :=
  match partitions with
  | [] => []
  | (device, Returned (total, free)) :: rest =>
      {| Disk.model := "Partição " +:+ device;
         Disk.type := ND;
         Disk.size := fmt2 (gib total) +:+ " GB";
         Disk.free_space := fmt2 (gib free) +:+ " GB" |}
      :: disks_of_partitions rest
  | (_, Raised _) :: rest => disks_of_partitions rest
  end.

(** [_get_disk_info_psutil] *)
Definition _get_disk_info_psutil (psutil : bool)
    (disk_partitions : outcome (list (string * outcome (Z * Z))))
  : list Disk.disk :=
  if negb psutil then []
  else match disk_partitions with
       | Raised _ => []
       | Returned partitions => disks_of_partitions partitions
       end.

End Probes.
End DiskProbes.

(** *** TPM: the tpmtool probe *)

Module Tpm.

(** The body of the loop of [_get_tpm_info_tpmtool]; [None] stands for the
    [IndexError] of [line.split(":", 1)[1]]. *)
Definition tpmtool_line (result : Scalar.record) (line : string)
  : option Scalar.record :=
  if Py.contains "Spec Version:" line then
    value ← Py.after_colon line;
    Some (<["version" := Py.strip value]> result)
  else if Py.contains "TPM Enabled:" line then
    value ← Py.after_colon line;
    let value := Py.lower (Py.strip value) in
    Some (<["status" := if String.eqb value "yes" || String.eqb value "true"
                        then "Habilitado" else "Desabilitado"]> result)
  else if Py.contains "Manufacturer:" line then
    value ← Py.after_colon line;
    Some (<["manufacturer" := Py.strip value]> result)
  else Some result.

(** The loop: [result] is written in place, so an exception would leave
    what the lines before it wrote. *)
Fixpoint tpmtool_lines (result : Scalar.record) (lines : list string)
  : Scalar.record :=
  match lines with
  | [] => result
  | line :: rest =>
      match tpmtool_line result line with
      | Some result' => tpmtool_lines result' rest
      | None => result
      end
  end.

Definition _get_tpm_info_tpmtool (is_windows : bool)
    (check_output : outcome string) : Scalar.record :=
  let result := Scalar.tpm_schema in
  if negb is_windows then result
  else match check_output with
       | Raised _ => result
       | Returned output =>
           tpmtool_lines result (Py.split_lines (Py.strip output))
       end.

End Tpm.

(** *** Bluetooth: the WMIC probe *)

Module Bluetooth.

(** The name and the status cut out of one row, when the row reaches both
    columns and the name is not blank. *)
Definition device_of_row (name_index status_index : Z) (line : string)
  : option (string * string) :=
  if (0 <=? name_index) && (0 <=? status_index)
     && (Z.max name_index status_index <? Py.len line) then
    let name :=
      if name_index <? status_index
      then Py.strip (Py.slice line name_index status_index)
      else Py.strip (Py.slice line name_index (Py.len line)) in
    let status :=
      if name_index <? status_index
      then Py.strip (Py.slice line status_index (Py.len line))
      else Py.strip (Py.slice line status_index name_index) in
    if Py.truthy name
    then Some (name, if Py.truthy status then status else "Desconhecido")
    else None
  else None.

(** The loop over [lines[1:]], left at the first device found. *)
Fixpoint first_device (name_index status_index : Z) (lines : list string)
  : option (string * string) :=
  match lines with
  | [] => None
  | line :: rest =>
      if negb (Py.truthy (Py.strip line))
      then first_device name_index status_index rest
      else match device_of_row name_index status_index line with
           | Some device => Some device
           | None => first_device name_index status_index rest
           end
  end.

Definition _get_bluetooth_info_wmic (is_windows : bool)
    (check_output : outcome string) : Scalar.record :=
  let result := Scalar.bluetooth_schema in
  if negb is_windows then result
  else match check_output with
       | Raised _ => result
       | Returned output =>
           match Py.split_lines (Py.strip output) with
           | header :: (_ :: _) as rows =>
               let name_index := Py.find "name" (Py.lower header) in
               let status_index := Py.find "status" (Py.lower header) in
               match first_device name_index status_index rows with
               | Some (name, status) =>
                   <["device_status" := status]>
                     (<["device_name" := name]> result)
               | None => result
               end
           | _ => result
           end
       end.

End Bluetooth.

(** *** Wi-Fi: the netsh probe *)

Module Wifi.

(** The three variables of the loop of [_get_wifi_info_netsh]. *)
Record scan : Type := {
  adapter_name : string;
  status : string;
  ssid : string
}.

(** [line.split(":", 1)[1].strip()]; [None] stands for [IndexError]. *)
Definition value (line : string) : option string :=
  Py.strip <$> Py.after_colon line.

(** The body of the loop. *)
Definition netsh_line (st : scan) (line : string) : option scan :=
  let line := Py.strip line in
  if Py.startswith "Name" line then
    v ← value line;
    Some {| adapter_name := v; status := status st; ssid := ssid st |}
  else if Py.startswith "State" line then
    status_raw ← value line;
    Some {| adapter_name := adapter_name st;
            status := if String.eqb status_raw "connected" then "Conectado"
                      else if String.eqb status_raw "disconnected"
                           then "Desconectado"
                           else status_raw;
            ssid := ssid st |}
  else if Py.startswith "SSID" line then
    v ← value line;
    Some {| adapter_name := adapter_name st; status := status st; ssid := v |}
  else Some st.

Fixpoint netsh_lines (st : scan) (lines : list string) : option scan :=
  match lines with
  | [] => Some st
  | line :: rest => st' ← netsh_line st line; netsh_lines st' rest
  end.

(** [_get_wifi_info_netsh]: the record is written after the loop, so an
    exception in the loop leaves it unavailable. *)
Definition _get_wifi_info_netsh (is_windows : bool)
    (check_output : outcome string) : Scalar.record :=
  let result := Scalar.wifi_schema in
  if negb is_windows then result
  else match check_output with
       | Raised _ => result
       | Returned output =>
           match netsh_lines {| adapter_name := ND; status := ND; ssid := ND |}
                             (Py.split_lines (Py.strip output)) with
           | Some st =>
               if negb (String.eqb (adapter_name st) ND) then
                 <["connected_ssid" :=
                     if String.eqb (status st) "Conectado" then ssid st
                     else "Não conectado"]>
                   (<["adapter_status" := status st]>
                      (<["adapter_name" := adapter_name st]> result))
               else result
           | None => result
           end
       end.

End Wifi.

(** A decimal stand-in for the floating point operations: hundredths of a
    gibibyte, rounded to nearest.  It instantiates [Runtime] where a
    statement is evaluated on concrete text. *)
Module Decimal.

Definition two_places (x : Z) : string :=
  let frac := x mod 100 in
  Py.str_of_nat (Z.to_nat (x / 100)) +:+ "." +:+
  (if frac <? 10 then "0" else "") +:+ Py.str_of_nat (Z.to_nat frac).

(** Two decimals at most, one at least, as [repr] prints a rounded value. *)
Definition shortest (x : Z) : string :=
  let frac := x mod 100 in
  Py.str_of_nat (Z.to_nat (x / 100)) +:+ "." +:+
  (if frac mod 10 =? 0 then Py.str_of_nat (Z.to_nat (frac / 10))
   else (if frac <? 10 then "0" else "") +:+ Py.str_of_nat (Z.to_nat frac)).

Definition show (v : json) : string :=
  match v with
  | JNum n => if n <? 0 then "-" +:+ Py.str_of_nat (Z.to_nat (- n))
              else Py.str_of_nat (Z.to_nat n)
  | JStr s => s
  | JNull => "None"
  | JBool true => "True"
  | JBool false => "False"
  | JArr _ => "[...]"
  | JObj _ => "{...}"
  end.

Definition runtime (loads : string -> option json) : Runtime := {|
  float := Z;
  gib n := (n * 100 + 2 ^ 29) / 2 ^ 30;
  fzero := 0;
  fadd := Z.add;
  fpos x := 0 <? x;
  fmt2 := two_places;
  fstr := shortest;
  jstr := show;
  loads := loads
|}.

End Decimal.

(** ** Concrete probe results used to evaluate the statements *)

Module Examples.

(** Two motherboard probes that both report a manufacturer. *)
Definition board_wmi : Scalar.record :=
  {[ "manufacturer" := "ASUS"; "model" := ND; "serial_number" := ND ]}.
Definition board_wmic : Scalar.record :=
  {[ "manufacturer" := "ASUSTeK COMPUTER INC."; "model" := "B85M-G";
     "serial_number" := ND ]}.


Definition module_cim : Ram.ram_module :=
  {| Ram.size := "0 GB"; Ram.manufacturer := "Kingston";
     Ram.location := "BANK 0"; Ram.speed := "2400 MHz" |}.
Definition module_wmi : Ram.ram_module :=
  {| Ram.size := "8.0 GB"; Ram.manufacturer := "Kingston";
     Ram.location := "BANK 0"; Ram.speed := "2400 MHz" |}.

(** A first RAM probe whose modules report no capacity, so that it has no
    total, and a second one that has everything. *)
Definition ram_cim : Ram.ram_info :=
  {| Ram.total := ND; Ram.slots_used := "1"; Ram.modules := [module_cim] |}.
Definition ram_wmi : Ram.ram_info :=
  {| Ram.total := "8.00 GB"; Ram.slots_used := "1";
     Ram.modules := [module_wmi] |}.

(** The identity key of the specification: the model trimmed and in lower
    case.  The collectors compare the [model] texts themselves. *)
Definition identity_key (model : string) : string := Py.lower (Py.strip model).

(** The same drive as two disk probes report it, one with the type and one
    with the free space. *)
Definition evo_typed : Disk.disk :=
  {| Disk.model := "Samsung 970 EVO"; Disk.type := "SSD";
     Disk.size := "465.76 GB"; Disk.free_space := ND |}.
Definition evo_free : Disk.disk :=
  {| Disk.model := "Samsung 970 EVO"; Disk.type := ND;
     Disk.size := "465.00 GB"; Disk.free_space := "120.50 GB" |}.

(** The drive with its model in another case. *)
Definition evo_lower : Disk.disk :=
  {| Disk.model := "SAMSUNG 970 EVO"; Disk.type := ND;
     Disk.size := "465.00 GB"; Disk.free_space := "120.50 GB" |}.

(** Output of [wmic diskdrive get model,size,mediatype] and of
    [wmic logicaldisk where drivetype=3 get deviceid,freespace,size]. *)
Definition diskdrive_output : string :=
  "MediaType              Model                Size
Fixed hard disk media  Samsung NVMe 970     500107862016
Fixed hard disk media  WDC WD10EZEX         1000204886016
".
Definition logicaldisk_output : string :=
  "DeviceID  FreeSpace     Size
C:        100000000000  500000000000
D:        200000000000  1000000000000
".


(** Output of [wmic baseboard get manufacturer,product,serialnumber]: a
    board with its three values, the same board with a blank manufacturer,
    and a table without the serial number column. *)
Definition baseboard_output : string :=
  "Manufacturer  Product  SerialNumber
ASUSTeK       B85M-G   12345
".
Definition baseboard_blank_manufacturer : string :=
  "Manufacturer  Product  SerialNumber
              B85M-G   12345
".
Definition baseboard_no_serial : string :=
  "Manufacturer  Product
ASUSTeK       B85M-G
".

(** A memory module as PowerShell serializes it, with neither a bank label
    nor a device locator. *)
Definition module_fields : list (string * json) :=
  [("BankLabel", JStr ""); ("DeviceLocator", JStr "");
   ("Capacity", JNum 8589934592); ("Manufacturer", JStr "Kingston");
   ("PartNumber", JStr "KHX2666C16"); ("SerialNumber", JStr "1B2C3D4E");
   ("Speed", JNum 2666)].
Definition module_json : json := JObj module_fields.

(** A decoder that yields that module for every text. *)
Definition one_module : Runtime :=
  Decimal.runtime (fun _ => Some module_json).

(** A motherboard probe that has the three values. *)
Definition board_full : Scalar.record :=
  {[ "manufacturer" := "ASUSTeK COMPUTER INC."; "model" := "B85M-G";
     "serial_number" := "12345" ]}.

(** Output of [netsh wlan show interfaces] for a connected adapter, and
    the same output with a state line that has no colon. *)
Definition netsh_connected : string :=
  "    Name                   : Wi-Fi
    Description            : Intel(R) Wireless-AC 9560
    State                  : connected
    SSID                   : HomeNet
    BSSID                  : 00:11:22:33:44:55
".
Definition netsh_no_colon : string :=
  "    Name                   : Wi-Fi
    State
    SSID                   : HomeNet
".





End Examples.

(** * Properties *)

(** ** The scalar field merge *)

Section ScalarFacts.
Import Scalar.
Implicit Types (r result schema mr : gmap string string) (f : string).

Lemma foldl_update_field_lookup (l : list (string * string)) r f :
  NoDup l.*1 ->
  foldl update_field r l !! f =
    match (list_to_map l : gmap string string) !! f with
    | Some v => if resolved v then Some v else r !! f
    | None => r !! f
    end.
Proof.
  revert r. induction l as [|[k v] l IH]; intros r Hnd; [done|].
  apply NoDup_cons in Hnd as [Hk Hnd]. cbn [foldl]. rewrite IH by done.
  cbn [list_to_map foldr]. unfold update_field; cbn [fst snd].
  destruct (decide (k = f)) as [->|Hne].
  - rewrite lookup_insert_eq.
    rewrite (not_elem_of_list_to_map_1 (M:=gmap string) l f Hk).
    destruct (resolved v); [by rewrite lookup_insert_eq|done].
  - rewrite lookup_insert_ne by done.
    destruct (list_to_map l !! f) as [w|]; [destruct (resolved w); [done|]|];
      (destruct (resolved v); [by rewrite lookup_insert_ne|done]).
Qed.

(** One probe's record merged into the accumulator, field by field. *)
Lemma update_fields_lookup r mr f :
  update_fields r mr !! f =
    match mr !! f with
    | Some v => if resolved v then Some v else r !! f
    | None => r !! f
    end.
Proof.
  unfold update_fields. rewrite foldl_update_field_lookup.
  - by rewrite list_to_map_to_list.
  - apply NoDup_fst_map_to_list.
Qed.





Lemma run_app r pre post :
  run r (pre ++ post) =
    if (run r pre).2 then run r pre else run (run r pre).1 post.
Proof.
  revert r.
  induction pre as [|[mr|e] pre IH]; intros r; cbn [run app]; [done| |done].
  destruct (truthy mr); [|done].
  destruct (all_resolved (update_fields r mr)); [done|apply IH].
Qed.






End ScalarFacts.



(** ** The RAM collector *)

Section RamFacts.
Import Ram.



Lemma update_modules r mr :
  modules (update r mr) =
    match modules mr with [] => modules r | _ => modules mr end.
Proof. cbn. by destruct (modules mr). Qed.

Lemma ram_run_app r pre post :
  run r (pre ++ post) =
    if (run r pre).2 then run r pre else run (run r pre).1 post.
Proof.
  revert r.
  induction pre as [|[mr|e] pre IH]; intros r; cbn [run app]; [done| |done].
  destruct (complete (update r mr)); [done|apply IH].
Qed.

(** Probes without modules leave the module list as it is. *)
Lemma run_keeps_modules r methods :
  forallb (fun p => negb (has_modules p)) methods = true ->
  modules (run r methods).1 = modules r.
Proof.
  revert r.
  induction methods as [|[mr|e] methods IH]; intros r Hall; [done| |].
  - cbn in Hall. apply andb_true_iff in Hall as [Hmr Hall].
    assert (modules (update r mr) = modules r) as Hup.
    { rewrite update_modules. destruct (modules mr); [done|discriminate]. }
    cbn [run]. destruct (complete (update r mr)); [done|].
    by rewrite IH.
  - cbn in Hall. by apply IH.
Qed.


(** C2, as the code has it: a probe that is consulted and returns a
    non-empty module list replaces the list held, whole.  The final module
    list is the list of probe [B] when the loop reaches [B], [B]'s list is
    not empty, and either the record is complete after [B] (total, slots
    and modules resolved: the loop stops) or no later probe returns
    modules. *)
Theorem C2_modules_of_last_consulted
    (pre post : list (outcome ram_info)) (B : ram_info) :
  (run initial pre).2 = false ->
  modules B <> [] ->
  complete (update (run initial pre).1 B) = true
  \/ forallb (fun p => negb (has_modules p)) post = true ->
  modules (get_ram_info (pre ++ Returned B :: post)) = modules B.
Proof.
  intros Hpre HB Hpost. unfold get_ram_info.
  rewrite ram_run_app, Hpre. cbn [run].
  assert (modules (update (run initial pre).1 B) = modules B) as Hup.
  { rewrite update_modules. by destruct (modules B). }
  destruct (complete (update (run initial pre).1 B)) eqn:Hc; [done|].
  destruct Hpost as [?|Hpost]; [done|]. by rewrite run_keeps_modules.
Qed.

End RamFacts.

(** C2 at the two RAM probes of [Examples]: the list of the second probe
    is the one returned, although the first probe had modules. *)
Lemma C2_witness :
  Ram.modules
    (Ram.get_ram_info
       ([Returned Examples.ram_cim] ++ Returned Examples.ram_wmi :: [])) =
  Ram.modules Examples.ram_wmi.
Proof.
  apply (C2_modules_of_last_consulted
           [Returned Examples.ram_cim] [] Examples.ram_wmi).
  - reflexivity.
  - discriminate.
  - left. reflexivity.
Defined.

(** C2 as stated fails: the first probe returns a non-empty module list
    (without a total, its modules reporting no capacity), the second one
    returns another list, and the second list is the final one. *)
Lemma C2_later_modules_replace :
  Ram.modules Examples.ram_cim = [Examples.module_cim] /\
  Ram.modules Examples.ram_wmi = [Examples.module_wmi] /\
  Ram.modules
    (Ram.get_ram_info [Returned Examples.ram_cim; Returned Examples.ram_wmi])
  = [Examples.module_wmi] /\
  Ram.modules
    (Ram.get_ram_info [Returned Examples.ram_cim; Returned Examples.ram_wmi])
  <> Ram.modules Examples.ram_cim.
Proof. vm_compute. repeat split; discriminate. Qed.






(** ** Disks and video adapters *)

(** C4: the type inference of the WMI disk probe does not follow the
    rule.  With the media type WMI reports for a fixed disk and a model
    that names NVMe, [_get_disk_info_wmi] answers HDD where the rule, and
    [_get_disk_info_wmic] on the same texts, answer NVMe; with both markers
    in the media type it answers SSD where NVMe has precedence. *)
Theorem C4_wmi_type_ignores_model :
  Disk.wmi_disk_type (Some "Fixed hard disk media") (Some "Samsung NVMe 970")
    = "HDD" /\
  Disk.wmic_disk_type "Fixed hard disk media" "Samsung NVMe 970" = "NVMe" /\
  Disk.wmi_disk_type (Some "NVMe SSD") (Some "Samsung 970") = "SSD" /\
  Disk.wmic_disk_type "NVMe SSD" "Samsung 970" = "NVMe".
Proof. vm_compute. repeat split. Qed.

(** What C4 states holds of the WMIC probe, for all texts. *)
Lemma wmic_disk_type_rule (mediatype model : string) :
  let media := Py.lower mediatype in
  let name := Py.lower model in
  Disk.wmic_disk_type mediatype model =
    if Py.contains "nvme" media || Py.contains "nvme" name then "NVMe"
    else if Py.contains "ssd" media || Py.contains "solid state" media
            || Py.contains "ssd" name then "SSD"
    else "HDD".
Proof. reflexivity. Qed.

Section DiskFacts.
Import Disk.

Lemma merge_disk_unmatched (all_disks : list disk) (d : disk) :
  Forall (fun e => model e <> model d) all_disks ->
  merge_disk all_disks d = all_disks ++ [d].
Proof.
  induction 1 as [|e l He _ IH]; [done|]. cbn [merge_disk].
  apply String.eqb_neq in He. by rewrite He, IH.
Qed.

Lemma merge_disk_matched (l1 l2 : list disk) (e d : disk) :
  Forall (fun e' => model e' <> model d) l1 ->
  model e = model d ->
  merge_disk (l1 ++ e :: l2) d = l1 ++ gain e d :: l2.
Proof.
  intros Hl1 He. induction Hl1 as [|e' l He' _ IH]; cbn [merge_disk app].
  - rewrite He, String.eqb_refl. f_equal. unfold gain.
    destruct (String.eqb_spec (type e) ND) as [Ht|],
             (String.eqb_spec (type d) ND) as [Hd|],
             (String.eqb_spec (free_space e) ND) as [Hf|],
             (String.eqb_spec (free_space d) ND) as [Hg|];
      cbn; f_equal; congruence.
  - apply String.eqb_neq in He'. by rewrite He', IH.
Qed.

End DiskFacts.

Section ListMerge.
Import Disk.

Lemma merge_gpu_unmatched (result : list Gpu.gpu) (g : Gpu.gpu) :
  Forall (fun e => Gpu.model e <> Gpu.model g) result ->
  Gpu.merge_gpu result g = result ++ [g].
Proof.
  induction 1 as [|e l He _ IH]; [done|]. cbn [Gpu.merge_gpu].
  apply String.eqb_neq in He. by rewrite He, IH.
Qed.

Lemma merge_gpu_matched (result : list Gpu.gpu) (g : Gpu.gpu) :
  Exists (fun e => Gpu.model e = Gpu.model g) result ->
  Gpu.merge_gpu result g = result.
Proof.
  induction result as [|e l IH]; intros Hex; [by apply Exists_nil in Hex|].
  cbn [Gpu.merge_gpu].
  destruct (String.eqb_spec (Gpu.model e) (Gpu.model g)) as [|Hne]; [done|].
  apply Exists_cons in Hex as [?|Hex]; [done|]. by rewrite IH.
Qed.

(** C7, as the code has it: a reported disk or video adapter is merged
    into an existing entry exactly when the two [model] texts are equal
    (no trimming, no change of case).  Without an equal model the entity is
    appended; with one, the first such disk entry takes the type and the
    free space it lacks ([gain]) and the list of video adapters is left
    as it is.  Two disk probes reporting "Samsung 970 EVO", one with the
    type and one with the free space, yield one entry with both. *)
Theorem C7_merge_on_equal_model
    (all_disks : list disk) (d : disk) (result : list Gpu.gpu) (g : Gpu.gpu) :
  (Forall (fun e => model e <> model d) all_disks ->
   merge_disk all_disks d = all_disks ++ [d]) /\
  (forall l1 e l2,
     all_disks = l1 ++ e :: l2 ->
     Forall (fun e' => model e' <> model d) l1 ->
     model e = model d ->
     merge_disk all_disks d = l1 ++ gain e d :: l2) /\
  (Forall (fun e => Gpu.model e <> Gpu.model g) result ->
   Gpu.merge_gpu result g = result ++ [g]) /\
  (Exists (fun e => Gpu.model e = Gpu.model g) result ->
   Gpu.merge_gpu result g = result) /\
  get_disk_info [Returned [Examples.evo_typed]; Returned [Examples.evo_free]] =
    [{| model := "Samsung 970 EVO"; type := "SSD"; size := "465.76 GB";
        free_space := "120.50 GB" |}].
Proof.
  split; [apply merge_disk_unmatched|].
  split; [intros l1 e l2 ->; apply merge_disk_matched|].
  split; [apply merge_gpu_unmatched|].
  split; [apply merge_gpu_matched|reflexivity].
Qed.

(** C7 as stated fails: two models that are equal after trimming and
    lower-casing, but not as texts, stay two entries. *)
Lemma C7_case_is_not_normalized :
  Examples.identity_key (model Examples.evo_typed) =
    Examples.identity_key (model Examples.evo_lower) /\
  get_disk_info [Returned [Examples.evo_typed]; Returned [Examples.evo_lower]] =
    [Examples.evo_typed; Examples.evo_lower].
Proof. vm_compute. split; reflexivity. Qed.

End ListMerge.

(** ** The WMIC disk probe *)

Section WmicDisk.
Context `{Runtime}.
Import Disk.

Lemma disks_of_rows_free_space (indices : list (Z * string)) (lines : list string) :
  Forall (fun d => free_space d = ND) (disks_of_rows indices lines).
Proof.
  induction lines as [|line rest IH]; cbn [disks_of_rows]; [constructor|].
  destruct (negb _); [done|].
  destruct (disk_of_row indices line) as [d|] eqn:Hd; [|done].
  constructor; [|done]. unfold disk_of_row in Hd.
  destruct (int_field _ "size"); [|done]. cbn in Hd. by injection Hd as <-.
Qed.

Lemma parse_disks_free_space (model_text : string) :
  Forall (fun d => free_space d = ND) (parse_disks model_text).
Proof.
  unfold parse_disks. destruct (Py.split_lines _); [constructor|].
  apply disks_of_rows_free_space.
Qed.

Lemma assign_free_space_others (result : list disk) (total : float) :
  tail (assign_free_space result total) = tail result.
Proof. destruct result; [done|]. cbn. by destruct (fpos total). Qed.

(** The loop over the logical disks is a left fold of the addition over
    the amounts of the rows that are not blank and whose free space reads
    as an integer. *)
Lemma sum_free_space_foldl (indices : list (Z * string)) (lines : list string)
    (total : float) :
  sum_free_space indices lines total =
    foldl fadd total
      (omap (fun logical_line =>
               if Py.truthy (Py.strip logical_line)
               then gib <$> int_field (Tabular.row_dict indices logical_line)
                                      "freespace"
               else None) lines).
Proof.
  revert total. induction lines as [|line rest IH]; intros total; [done|].
  cbn [sum_free_space omap list_omap].
  destruct (Py.truthy (Py.strip line)); cbn [negb]; [|apply IH].
  destruct (int_field _ "freespace") as [n|]; cbn [fmap option_fmap option_map];
    [|apply IH].
  cbn [foldl]. apply IH.
Qed.

(** C10: in the WMIC disk probe every disk after the first one reports its
    free space as unavailable, whatever the two commands produce.  When
    both commands answer, the free space of every row of the logical disk
    table that is not blank and reads as an integer is converted to GiB and
    the amounts are added up from zero in the order of the rows; the disks
    are parsed with no free space, and when the sum is positive it is
    written, with two decimals, as the free space of the first disk of the
    list, the other disks being left as parsed.  No column of the logical
    disk table other than the free space is read: the sum goes to the
    first disk whichever disks the volumes are on. *)
Theorem C10_free_space_on_first_disk
    (is_windows : bool) (model_output logical_output : outcome string) :
  (forall (i : nat) (d : disk),
     _get_disk_info_wmic is_windows model_output logical_output !! S i = Some d ->
     free_space d = ND) /\
  (forall model_text logical_text logical_header rows first others,
     is_windows = true ->
     model_output = Returned model_text ->
     logical_output = Returned logical_text ->
     parse_disks model_text = first :: others ->
     Py.split_lines (Py.strip logical_text) = logical_header :: rows ->
     let logical_indices :=
       Tabular.locate logical_header
         [("deviceid", "deviceid"); ("freespace", "freespace");
          ("size", "size")] in
     let amounts :=
       omap (fun logical_line =>
               if Py.truthy (Py.strip logical_line)
               then gib <$> int_field
                              (Tabular.row_dict logical_indices logical_line)
                              "freespace"
               else None) rows in
     let total_free_space_gb := foldl fadd fzero amounts in
     free_space first = ND /\
     (fpos total_free_space_gb = true ->
      _get_disk_info_wmic is_windows model_output logical_output =
        {| model := model first; type := type first; size := size first;
           free_space := fmt2 total_free_space_gb +:+ " GB" |} :: others) /\
     (fpos total_free_space_gb = false ->
      _get_disk_info_wmic is_windows model_output logical_output =
        first :: others)).
Proof.
  split.
  - intros i d Hd.
    assert (tail (_get_disk_info_wmic is_windows model_output logical_output)
              !! i = Some d) as Ht.
    { by destruct (_get_disk_info_wmic _ _ _). }
    assert (exists text, tail (_get_disk_info_wmic is_windows model_output
                                 logical_output) = tail (parse_disks text))
      as [text Htext].
    { unfold _get_disk_info_wmic.
      destruct is_windows; [|by exists ""]. cbn [negb].
      destruct model_output as [model_text|]; [|by exists ""].
      destruct logical_output as [logical_text|]; [|by exists model_text].
      exists model_text. apply assign_free_space_others. }
    rewrite Htext in Ht.
    pose proof (parse_disks_free_space text) as Hall.
    assert (Forall (fun d => free_space d = ND) (tail (parse_disks text)))
      as Htail.
    { destruct (parse_disks text); [done|].
      by apply Forall_cons in Hall as [_ ?]. }
    exact (Forall_lookup_1 _ _ i d Htail Ht).
  - intros model_text logical_text logical_header rows first others
      -> -> -> Hparse Hlines logical_indices amounts total_free_space_gb.
    assert (total_free_space logical_text = total_free_space_gb) as Htotal.
    { unfold total_free_space. rewrite Hlines. apply sum_free_space_foldl. }
    split; [|split].
    + pose proof (parse_disks_free_space model_text) as Hall.
      rewrite Hparse in Hall. by apply Forall_cons in Hall as [? _].
    + intros Hpos. unfold _get_disk_info_wmic. cbn [negb].
      rewrite Hparse, Htotal. cbn [assign_free_space]. by rewrite Hpos.
    + intros Hpos. unfold _get_disk_info_wmic. cbn [negb].
      rewrite Hparse, Htotal. cbn [assign_free_space]. by rewrite Hpos.
Qed.

End WmicDisk.

(** C10 at the two tables of [Examples]: 93.13 and 186.26 GiB of free
    space on the volumes C: and D: make 279.39 GB on the first disk, and
    the second disk has none. *)
Lemma C10_witness :
  @Disk._get_disk_info_wmic Examples.one_module true
    (Returned Examples.diskdrive_output) (Returned Examples.logicaldisk_output)
  = [{| Disk.model := "Samsung NVMe 970"; Disk.type := "NVMe";
        Disk.size := "465.76 GB"; Disk.free_space := "279.39 GB" |};
     {| Disk.model := "WDC WD10EZEX"; Disk.type := "HDD";
        Disk.size := "931.51 GB"; Disk.free_space := ND |}].
Proof.
  refine (eq_trans
    (proj1 (proj2 (proj2 (@C10_free_space_on_first_disk Examples.one_module true
       (Returned Examples.diskdrive_output)
       (Returned Examples.logicaldisk_output))
       Examples.diskdrive_output Examples.logicaldisk_output
       "DeviceID  FreeSpace     Size"
       ["C:        100000000000  500000000000";
        "D:        200000000000  1000000000000"]
       {| Disk.model := "Samsung NVMe 970"; Disk.type := "NVMe";
          Disk.size := "465.76 GB"; Disk.free_space := ND |}
       [{| Disk.model := "WDC WD10EZEX"; Disk.type := "HDD";
           Disk.size := "931.51 GB"; Disk.free_space := ND |}]
       eq_refl eq_refl eq_refl _ _)) _) _);
    vm_compute; reflexivity.
Defined.

Example wmic_disks_example :
  @Disk._get_disk_info_wmic Examples.one_module true
    (Returned Examples.diskdrive_output) (Returned Examples.logicaldisk_output)
  = [{| Disk.model := "Samsung NVMe 970"; Disk.type := "NVMe";
        Disk.size := "465.76 GB"; Disk.free_space := "279.39 GB" |};
     {| Disk.model := "WDC WD10EZEX"; Disk.type := "HDD";
        Disk.size := "931.51 GB"; Disk.free_space := ND |}].
Proof. vm_compute. reflexivity. Qed.

(** ** The fixed-width table of the motherboard probe *)

(** C9: the motherboard probe trims the data row before it cuts it at the
    offsets of the header, so a row that starts with a blank column is cut
    at the wrong places.  With a blank manufacturer the probe puts the rest
    of the row in [manufacturer] and leaves the model and the serial number
    unavailable, where cutting the row itself gives the model and the
    serial number.  On a row without a leading blank the three values come
    out trimmed, and a header without the serial number column leaves
    [serial_number] unavailable. *)
Theorem C9_trimmed_row_shifts_columns :
  Motherboard._get_motherboard_info_wmic true
    (Returned Examples.baseboard_blank_manufacturer)
  = {[ "manufacturer" := "B85M-G   12345"; "model" := ND;
       "serial_number" := ND ]} /\
  Tabular.columns
    (Tabular.locate "Manufacturer  Product  SerialNumber"
       [("manufacturer", "manufacturer"); ("product", "model");
        ("serialnumber", "serial_number")])
    "              B85M-G   12345"
  = [("manufacturer", ""); ("model", "B85M-G"); ("serial_number", "12345")] /\
  Motherboard._get_motherboard_info_wmic true (Returned Examples.baseboard_output)
  = {[ "manufacturer" := "ASUSTeK"; "model" := "B85M-G";
       "serial_number" := "12345" ]} /\
  Motherboard._get_motherboard_info_wmic true
    (Returned Examples.baseboard_no_serial)
  = {[ "manufacturer" := "ASUSTeK"; "model" := "B85M-G";
       "serial_number" := ND ]}.
Proof. vm_compute. repeat split. Qed.

(** ** The manufacturer of a memory module *)

Section Manufacturer.
Import Ram.

Lemma by_part_number_rules (part_number : string) :
  by_part_number part_number = first_rule rules part_number.
Proof.
  unfold by_part_number, rules. cbn.
  repeat (match goal with
          | |- context [Py.contains ?s part_number] =>
              destruct (Py.contains s part_number); cbn
          end; try reflexivity).
Qed.

Lemma first_rule_empty : first_rule rules "" = NI.
Proof. reflexivity. Qed.

Lemma by_part_number_identified (part_number : string) :
  unidentified (by_part_number part_number) = false.
Proof.
  unfold by_part_number.
  repeat (match goal with
          | |- context [Py.contains ?s part_number] =>
              destruct (Py.contains s part_number); cbn [orb andb]
          end; try (vm_compute; reflexivity)).
Qed.

(** C8, as the code has it: a manufacturer that is present and not a
    generic placeholder is returned as it is; otherwise the rules are tried
    in order and the name of the first rule that holds of the part number
    is returned, a rule holding when one of its substrings appears in the
    part number, except that the G.Skill rule needs both "F4" and "G"; when
    no rule holds the result is "Não identificado".  "KHX2666C16" gives
    "Kingston" and "XYZ123" with an empty manufacturer gives
    "Não identificado". *)
Theorem C8_manufacturer_resolution (manufacturer part_number : string) :
  (unidentified manufacturer = false ->
   resolve_manufacturer manufacturer part_number = manufacturer) /\
  (unidentified manufacturer = true ->
   resolve_manufacturer manufacturer part_number =
     first_rule rules part_number) /\
  resolve_manufacturer "" "KHX2666C16" = "Kingston" /\
  resolve_manufacturer "" "XYZ123" = "Não identificado".
Proof.
  split; [|split; [|split; vm_compute; reflexivity]].
  - intros Hm. unfold resolve_manufacturer. by rewrite !Hm.
  - intros Hm. unfold resolve_manufacturer. rewrite Hm.
    destruct part_number as [|c p].
    + cbn [Py.truthy String.eqb negb]. by rewrite Hm.
    + cbn [Py.truthy String.eqb negb].
      by rewrite by_part_number_identified, by_part_number_rules.
Qed.

(** C8 as stated fails: "F4", the substring of the G.Skill pattern,
    appears in the part number "F4-3200C16", no earlier pattern does, and
    the scan of the pattern table answers "G.Skill"; the code answers
    "Não identificado", because its G.Skill rule also asks for "G". *)
Lemma C8_F4_alone_is_not_GSkill :
  Py.contains "F4" "F4-3200C16" = true /\
  first_match pattern_table "F4-3200C16" = "G.Skill" /\
  resolve_manufacturer "" "F4-3200C16" = "Não identificado".
Proof. vm_compute. repeat split. Qed.

End Manufacturer.

(** ** No empty text in the exported records *)

Section NoEmptyText.
Import Scalar.

Lemma resolved_nonempty (v : string) : resolved v = true -> v <> "".
Proof. by intros Hv ->. Qed.

Lemma run_never_empty (r : gmap string string) methods :
  (forall f v, r !! f = Some v -> v <> "") ->
  forall f v, (run r methods).1 !! f = Some v -> v <> "".
Proof.
  revert r. induction methods as [|[mr|e] methods IH]; intros r Hr; [done| |].
  - assert (forall f v, update_fields r mr !! f = Some v -> v <> "") as Hup.
    { intros f v. rewrite update_fields_lookup.
      destruct (mr !! f) as [w|]; [|apply Hr].
      destruct (resolved w) eqn:Hw; [|apply Hr].
      intros [= <-]. by apply resolved_nonempty. }
    cbn [run]. destruct (truthy mr); [|by apply IH].
    destruct (all_resolved (update_fields r mr)); [done|by apply IH].
  - cbn [run]. by apply IH.
Qed.

(** The part of C6 that holds: a scalar category record never holds the
    empty text, whatever its probes return. *)
Lemma scalar_record_never_empty (schema : gmap string string) methods f v :
  schema ∈ [motherboard_schema; cpu_schema; tpm_schema; bluetooth_schema;
            wifi_schema] ->
  collect schema methods !! f = Some v -> v <> "".
Proof.
  intros Hschema. apply run_never_empty. intros g w Hg.
  assert (w = ND) as ->; [|done].
  repeat (apply elem_of_cons in Hschema as [->|Hschema];
          [unfold motherboard_schema, cpu_schema, tpm_schema,
             bluetooth_schema, wifi_schema in Hg;
           repeat (apply lookup_insert_Some in Hg as [[_ <-]|[_ Hg]];
                   [done|]);
           by apply lookup_singleton_Some in Hg as [_ <-]|]).
  by apply elem_of_nil in Hschema.
Qed.

End NoEmptyText.

Section CimProbe.
Context `{Runtime}.
Import Ram.

(** A module whose bank label and device locator are blank gets the empty
    location. *)
Lemma cim_module_blank_location
    (fields : list (string * json)) (c : Z) (m0 bank locator : string) :
  to_int (get fields "Capacity" (JNum 0)) = Returned c ->
  get fields "Manufacturer" (JStr "") = JStr m0 ->
  unidentified (Py.strip m0) = false ->
  get fields "BankLabel" (JStr "") = JStr bank -> Py.strip bank = "" ->
  get fields "DeviceLocator" (JStr "") = JStr locator ->
  Py.strip locator = "" ->
  cim_module (JObj fields) =
    Returned (gib c,
              {| size := fstr (gib c) +:+ " GB";
                 manufacturer := resolve_manufacturer (Py.strip m0) "";
                 location := "";
                 speed := jstr (get fields "Speed" (JNum 0)) +:+ " MHz" |}).
Proof.
  intros Hc Hm Hid Hb Hbs Hl Hls.
  unfold cim_module, mbind, outcome_bind. cbn [as_object].
  rewrite Hc, Hm. cbn [str_strip]. rewrite Hid, Hb. cbn [str_strip].
  rewrite Hbs. cbn [Py.truthy String.eqb negb]. rewrite Hl. cbn [str_strip].
  by rewrite Hls.
Qed.

(** C6: a memory module record can hold the empty text.  When PowerShell
    reports a module whose bank label and device locator are blank (or
    missing), [_get_ram_info_powershell_cim] gives the module the location
    [""], and [get_ram_info] exports the module as it is. *)
Theorem C6_cim_location_is_empty
    (stdout : string) (fields : list (string * json)) (c : Z)
    (m0 bank locator : string) :
  Py.truthy (Py.strip stdout) = true ->
  loads stdout = Some (JObj fields) ->
  to_int (get fields "Capacity" (JNum 0)) = Returned c ->
  get fields "Manufacturer" (JStr "") = JStr m0 ->
  unidentified (Py.strip m0) = false ->
  get fields "BankLabel" (JStr "") = JStr bank -> Py.strip bank = "" ->
  get fields "DeviceLocator" (JStr "") = JStr locator ->
  Py.strip locator = "" ->
  exists m,
    modules (_get_ram_info_powershell_cim true (Returned (0, stdout))) = [m] /\
    location m = "" /\
    modules
      (get_ram_info
         [Returned (_get_ram_info_powershell_cim true (Returned (0, stdout)))])
    = [m].
Proof.
  intros Hout Hloads Hc Hm Hid Hb Hbs Hl Hls.
  pose proof (cim_module_blank_location fields c m0 bank locator
                Hc Hm Hid Hb Hbs Hl Hls) as Hmod.
  assert (exists m, modules (_get_ram_info_powershell_cim true
                               (Returned (0, stdout))) = [m]
                    /\ location m = "") as (m & Hms & Hloc).
  { unfold _get_ram_info_powershell_cim. cbn [negb Z.eqb andb].
    rewrite Hout, Hloads. cbn [cim_modules].
    rewrite Hmod. unfold mbind, outcome_bind. cbn [fmap list_fmap snd].
    eexists. split; reflexivity. }
  exists m. split; [done|]. split; [done|].
  unfold get_ram_info. cbn [run].
  assert (modules (update initial (_get_ram_info_powershell_cim true
                                     (Returned (0, stdout)))) = [m]) as Hup.
  { by rewrite update_modules, Hms. }
  by destruct (complete _).
Qed.

End CimProbe.

(** C6 at a decoder that yields the module of [Examples]. *)
Lemma C6_witness :
  exists m,
    Ram.modules
      (@Ram._get_ram_info_powershell_cim Examples.one_module true
         (Returned (0, "{ }"))) = [m] /\
    Ram.location m = "" /\
    Ram.modules
      (Ram.get_ram_info
         [Returned (@Ram._get_ram_info_powershell_cim Examples.one_module true
                      (Returned (0, "{ }")))])
    = [m].
Proof.
  apply (@C6_cim_location_is_empty Examples.one_module "{ }"
           Examples.module_fields 8589934592 "Kingston" "" "");
    reflexivity.
Defined.

(** ** Failures of the probes *)

Section Failures.
Context `{Runtime}.



End Failures.



(** * Further properties of the collectors *)

(** ** Scalar categories *)

Section CollectorFacts.
Import Scalar.
Implicit Types (r schema mr : gmap string string) (f : string).

Lemma update_fields_is_Some r mr f :
  is_Some (r !! f) -> is_Some (update_fields r mr !! f).
Proof.
  intros Hr. rewrite update_fields_lookup.
  destruct (mr !! f) as [v|]; [|done]. by destruct (resolved v).
Qed.

Lemma run_is_Some r methods f :
  is_Some (r !! f) -> is_Some ((run r methods).1 !! f).
Proof.
  revert r. induction methods as [|[mr|e] methods IH]; intros r Hr; [done| |].
  - pose proof (update_fields_is_Some r mr f Hr) as Hup.
    cbn [run]. destruct (truthy mr); [|by apply IH].
    destruct (all_resolved (update_fields r mr)); [done|by apply IH].
  - cbn [run]. by apply IH.
Qed.

(** A collector never drops a field: every field of the initial record is
    a field of the merged record, whatever the probes return or raise. *)
Theorem collect_keeps_fields schema methods f :
  is_Some (schema !! f) -> is_Some (collect schema methods !! f).
Proof. apply run_is_Some. Qed.

Lemma run_provenance r methods f v :
  (run r methods).1 !! f = Some v ->
  r !! f = Some v \/
  exists mr, Returned mr ∈ methods /\ mr !! f = Some v /\ resolved v = true.
Proof.
  revert r. induction methods as [|[mr|e] methods IH]; intros r; [by left| |].
  - assert (update_fields r mr !! f = Some v ->
            r !! f = Some v \/
            exists mr', Returned mr' ∈ Returned mr :: methods /\
                        mr' !! f = Some v /\ resolved v = true) as Hup.
    { rewrite update_fields_lookup.
      destruct (mr !! f) as [w|] eqn:Hw; [|by left].
      destruct (resolved w) eqn:Hres; [|by left].
      intros [= <-]. right. exists mr. split; [apply list_elem_of_here|done]. }
    assert ((run r methods).1 !! f = Some v ->
            r !! f = Some v \/
            exists mr', Returned mr' ∈ Returned mr :: methods /\
                        mr' !! f = Some v /\ resolved v = true) as Hskip.
    { intros [?|(mr' & Hin & ?)]%IH; [by left|].
      right. exists mr'. split; [by apply list_elem_of_further|done]. }
    cbn [run]. destruct (truthy mr); [|done].
    destruct (all_resolved (update_fields r mr)); [done|].
    intros [Hv|(mr' & Hin & ?)]%IH; [by apply Hup|].
    right. exists mr'. split; [by apply list_elem_of_further|done].
  - cbn [run]. intros [?|(mr' & Hin & ?)]%IH; [by left|].
    right. exists mr'. split; [by apply list_elem_of_further|done].
Qed.

(** A collector invents no value: the text it holds for a field is the one
    of the initial record, or a resolved text that one of the probes that
    returned holds for that very field. *)
Theorem collect_value_provenance schema methods f v :
  collect schema methods !! f = Some v ->
  schema !! f = Some v \/
  exists mr, Returned mr ∈ methods /\ mr !! f = Some v /\ resolved v = true.
Proof. apply run_provenance. Qed.

Lemma run_break_complete r methods :
  (run r methods).2 = true -> all_resolved (run r methods).1 = true.
Proof.
  revert r. induction methods as [|[mr|e] methods IH]; intros r; [done| |].
  - cbn [run]. destruct (truthy mr); [|apply IH].
    destruct (all_resolved (update_fields r mr)) eqn:Hall; [done|apply IH].
  - cbn [run]. apply IH.
Qed.

Lemma ram_run_break_complete (r : Ram.ram_info) methods :
  (Ram.run r methods).2 = true -> Ram.complete (Ram.run r methods).1 = true.
Proof.
  revert r. induction methods as [|[mr|e] methods IH]; intros r; [done| |].
  - cbn [Ram.run].
    destruct (Ram.complete (Ram.update r mr)) eqn:Hc; [done|apply IH].
  - cbn [Ram.run]. apply IH.
Qed.

(** The loops stop early only on a complete record, and a loop that has
    stopped consults no further probe: the probes listed after the point
    of the [break] have no effect on the result.  For the scalar
    categories and for the RAM category. *)
Theorem collectors_stop_when_complete
    schema (pre post : list (outcome (gmap string string)))
    (pre' post' : list (outcome Ram.ram_info)) :
  (run schema pre).2 = true ->
  (Ram.run Ram.initial pre').2 = true ->
  (all_resolved (collect schema pre) = true /\
   collect schema (pre ++ post) = collect schema pre) /\
  (Ram.complete (Ram.get_ram_info pre') = true /\
   Ram.get_ram_info (pre' ++ post') = Ram.get_ram_info pre').
Proof.
  intros Hb Hb'. split; split.
  - by apply run_break_complete.
  - unfold collect. by rewrite run_app, Hb.
  - by apply ram_run_break_complete.
  - unfold Ram.get_ram_info. by rewrite ram_run_app, Hb'.
Qed.

Lemma ram_run_modules (r : Ram.ram_info) methods :
  Ram.modules (Ram.run r methods).1 = Ram.modules r \/
  exists p : Ram.ram_info, Returned p ∈ methods /\ Ram.modules p <> [] /\
             Ram.modules (Ram.run r methods).1 = Ram.modules p.
Proof.
  revert r. induction methods as [|[mr|e] methods IH]; intros r; [by left| |].
  - assert (Ram.modules (Ram.update r mr) = Ram.modules r \/
            exists p : Ram.ram_info, Returned p ∈ Returned mr :: methods /\
                        Ram.modules p <> [] /\
                        Ram.modules (Ram.update r mr) = Ram.modules p) as Hup.
    { rewrite update_modules. destruct (Ram.modules mr) as [|m ms] eqn:Hm;
        [by left|]. right. exists mr.
      split; [apply list_elem_of_here|]. by rewrite Hm. }
    cbn [Ram.run]. destruct (Ram.complete (Ram.update r mr)); [done|].
    destruct (IH (Ram.update r mr)) as [Heq|(mr' & Hin & Hne & Heq)].
    + by rewrite Heq.
    + right. exists mr'. split; [by apply list_elem_of_further|done].
  - cbn [Ram.run].
    destruct (IH r) as [Heq|(mr' & Hin & Hne & Heq)]; [by left|].
    right. exists mr'. split; [by apply list_elem_of_further|done].
Qed.

(** The module list of the RAM category is never pieced together: it is
    empty, or it is the whole, non-empty list of one of the probes that
    returned. *)
Theorem ram_modules_of_one_probe (methods : list (outcome Ram.ram_info)) :
  Ram.modules (Ram.get_ram_info methods) = [] \/
  exists p : Ram.ram_info, Returned p ∈ methods /\ Ram.modules p <> [] /\
             Ram.modules (Ram.get_ram_info methods) = Ram.modules p.
Proof. apply (ram_run_modules Ram.initial). Qed.

End CollectorFacts.

(** The motherboard record keeps its serial number field when no probe
    has one. *)
Lemma collect_keeps_fields_witness :
  is_Some (Scalar.get_motherboard_info
             [Raised TimeoutExpired; Returned Examples.board_wmic]
             !! "serial_number").
Proof.
  apply (collect_keeps_fields Scalar.motherboard_schema
           [Raised TimeoutExpired; Returned Examples.board_wmic]
           "serial_number").
  by eexists.
Defined.

Lemma collect_value_provenance_witness :
  Scalar.motherboard_schema !! "model" = Some "B85M-G" \/
  exists mr,
    mr ∈ [Examples.board_wmi; Examples.board_wmic] /\
    mr !! "model" = Some "B85M-G" /\ resolved "B85M-G" = true.
Proof.
  destruct (collect_value_provenance Scalar.motherboard_schema
              [Returned Examples.board_wmi; Returned Examples.board_wmic]
              "model" "B85M-G" eq_refl) as [Hs|(mr & Hin & Hv & Hres)].
  - by left.
  - right. exists mr. split; [|done].
    apply elem_of_cons in Hin as [[= ->]|Hin]; [apply list_elem_of_here|].
    apply elem_of_cons in Hin as [[= ->]|Hin];
      [apply list_elem_of_further, list_elem_of_here|].
    by apply elem_of_nil in Hin.
Defined.

(** ** The list categories: disks and video adapters *)

Section MergedLists.

Lemma merge_gpu_models_old (result : list Gpu.gpu) (g : Gpu.gpu) :
  Gpu.model g ∈ Gpu.model <$> result -> Gpu.merge_gpu result g = result.
Proof.
  intros (e & He & Hin)%list_elem_of_fmap. apply merge_gpu_matched.
  apply Exists_exists. by exists e.
Qed.

Lemma merge_gpu_models_new (result : list Gpu.gpu) (g : Gpu.gpu) :
  Gpu.model g ∉ Gpu.model <$> result ->
  Gpu.merge_gpu result g = result ++ [g].
Proof.
  intros Hnot. apply merge_gpu_unmatched. apply Forall_forall.
  intros e He Heq. apply Hnot. rewrite <- Heq. by apply list_elem_of_fmap_2.
Qed.

Lemma merge_disk_models_old (all_disks : list Disk.disk) (d : Disk.disk) :
  Disk.model d ∈ Disk.model <$> all_disks ->
  Disk.model <$> Disk.merge_disk all_disks d = Disk.model <$> all_disks.
Proof.
  induction all_disks as [|e l IH]; [by intros ?%elem_of_nil|].
  intros Hin. cbn [Disk.merge_disk].
  destruct (String.eqb_spec (Disk.model e) (Disk.model d)) as [Heq|Hne];
    [done|].
  cbn [fmap list_fmap] in *. apply elem_of_cons in Hin as [Heq|Hin];
    [by destruct Hne|].
  f_equal. by apply IH.
Qed.

Lemma merge_disk_models_new (all_disks : list Disk.disk) (d : Disk.disk) :
  Disk.model d ∉ Disk.model <$> all_disks ->
  Disk.merge_disk all_disks d = all_disks ++ [d].
Proof.
  intros Hnot. apply merge_disk_unmatched. apply Forall_forall.
  intros e He Heq. apply Hnot. rewrite <- Heq. by apply list_elem_of_fmap_2.
Qed.

Lemma merge_gpu_NoDup (result : list Gpu.gpu) (g : Gpu.gpu) :
  NoDup (Gpu.model <$> result) ->
  NoDup (Gpu.model <$> Gpu.merge_gpu result g).
Proof.
  intros Hnd.
  destruct (decide (Gpu.model g ∈ Gpu.model <$> result)) as [Hin|Hnot].
  - by rewrite merge_gpu_models_old.
  - rewrite merge_gpu_models_new by done. rewrite fmap_app.
    apply NoDup_app. split; [done|]. split; [|apply NoDup_singleton].
    intros m Hm ->%list_elem_of_singleton. by apply Hnot.
Qed.

Lemma merge_disk_NoDup (all_disks : list Disk.disk) (d : Disk.disk) :
  NoDup (Disk.model <$> all_disks) ->
  NoDup (Disk.model <$> Disk.merge_disk all_disks d).
Proof.
  intros Hnd.
  destruct (decide (Disk.model d ∈ Disk.model <$> all_disks)) as [Hin|Hnot].
  - by rewrite merge_disk_models_old.
  - rewrite merge_disk_models_new by done. rewrite fmap_app.
    apply NoDup_app. split; [done|]. split; [|apply NoDup_singleton].
    intros m Hm ->%list_elem_of_singleton. by apply Hnot.
Qed.

Lemma foldl_invariant {A B : Type} (P : A -> Prop) (f : A -> B -> A)
    (l : list B) (a : A) :
  (forall a b, P a -> P (f a b)) -> P a -> P (foldl f a l).
Proof.
  intros Hf. revert a. induction l as [|b l IH]; intros a Ha; [done|].
  cbn [foldl]. by apply IH, Hf.
Qed.

(** The collected lists hold no model twice: the models of the disks
    returned by [get_disk_info] are pairwise distinct, and so are those of
    the video adapters returned by [get_gpu_info], whatever the probes
    report (a probe may list the same model several times). *)
Theorem collected_models_are_distinct
    (disk_methods : list (outcome (list Disk.disk)))
    (gpu_methods : list (outcome (list Gpu.gpu))) :
  NoDup (Disk.model <$> Disk.get_disk_info disk_methods) /\
  NoDup (Gpu.model <$> Gpu.get_gpu_info gpu_methods).
Proof.
  split.
  - unfold Disk.get_disk_info.
    apply (foldl_invariant (fun l => NoDup (Disk.model <$> l)));
      [|apply NoDup_nil_2].
    intros acc [result|e] Hacc; [|done].
    apply (foldl_invariant (fun l => NoDup (Disk.model <$> l))); [|done].
    intros. by apply merge_disk_NoDup.
  - unfold Gpu.get_gpu_info.
    apply (foldl_invariant (fun l => NoDup (Gpu.model <$> l)));
      [|apply NoDup_nil_2].
    intros acc [result|e] Hacc; [|done].
    apply (foldl_invariant (fun l => NoDup (Gpu.model <$> l))); [|done].
    intros. by apply merge_gpu_NoDup.
Qed.

Lemma merge_gpu_elem (result : list Gpu.gpu) (g : Gpu.gpu) (m : string) :
  m ∈ Gpu.model <$> Gpu.merge_gpu result g <->
  m ∈ Gpu.model <$> result \/ m = Gpu.model g.
Proof.
  destruct (decide (Gpu.model g ∈ Gpu.model <$> result)) as [Hin|Hnot].
  - rewrite merge_gpu_models_old by done. split; [by left|].
    by intros [?| ->].
  - rewrite merge_gpu_models_new by done.
    rewrite fmap_app, elem_of_app. cbn. by rewrite list_elem_of_singleton.
Qed.

Lemma merge_disk_elem (all_disks : list Disk.disk) (d : Disk.disk)
    (m : string) :
  m ∈ Disk.model <$> Disk.merge_disk all_disks d <->
  m ∈ Disk.model <$> all_disks \/ m = Disk.model d.
Proof.
  destruct (decide (Disk.model d ∈ Disk.model <$> all_disks)) as [Hin|Hnot].
  - rewrite merge_disk_models_old by done. split; [by left|].
    by intros [?| ->].
  - rewrite merge_disk_models_new by done.
    rewrite fmap_app, elem_of_app. cbn. by rewrite list_elem_of_singleton.
Qed.

Lemma foldl_merge_gpu_elem (l result : list Gpu.gpu) (m : string) :
  m ∈ Gpu.model <$> foldl Gpu.merge_gpu result l <->
  m ∈ Gpu.model <$> result \/ m ∈ Gpu.model <$> l.
Proof.
  revert result. induction l as [|g l IH]; intros result; cbn [foldl].
  - cbn. rewrite elem_of_nil. tauto.
  - rewrite IH, merge_gpu_elem. cbn [fmap list_fmap].
    rewrite elem_of_cons. tauto.
Qed.

Lemma foldl_merge_disk_elem (l all_disks : list Disk.disk) (m : string) :
  m ∈ Disk.model <$> foldl Disk.merge_disk all_disks l <->
  m ∈ Disk.model <$> all_disks \/ m ∈ Disk.model <$> l.
Proof.
  revert all_disks. induction l as [|d l IH]; intros all_disks; cbn [foldl].
  - cbn. rewrite elem_of_nil. tauto.
  - rewrite IH, merge_disk_elem. cbn [fmap list_fmap].
    rewrite elem_of_cons. tauto.
Qed.

Lemma gpu_run_elem (methods : list (outcome (list Gpu.gpu)))
    (result : list Gpu.gpu) (m : string) :
  m ∈ Gpu.model <$>
      foldl (fun result method =>
               match method with
               | Returned method_result =>
                   foldl Gpu.merge_gpu result method_result
               | Raised _ => result
               end) result methods <->
  m ∈ Gpu.model <$> result \/
  exists l, Returned l ∈ methods /\ m ∈ Gpu.model <$> l.
Proof.
  revert result.
  induction methods as [|[l|e] methods IH]; intros result; cbn [foldl].
  - split; [by left|]. intros [?|(l & Hin & _)]; [done|].
    by apply elem_of_nil in Hin.
  - rewrite IH, foldl_merge_gpu_elem. split.
    + intros [[?|?]|(l' & Hin & ?)]; [by left| |].
      * right. exists l. split; [apply list_elem_of_here|done].
      * right. exists l'. split; [by apply list_elem_of_further|done].
    + intros [?|(l' & Hin & ?)]; [by left; left|].
      apply elem_of_cons in Hin as [[= ->]|Hin]; [by left; right|].
      right. by exists l'.
  - rewrite IH. split.
    + intros [?|(l' & Hin & ?)]; [by left|].
      right. exists l'. split; [by apply list_elem_of_further|done].
    + intros [?|(l' & Hin & ?)]; [by left|].
      apply elem_of_cons in Hin as [[=]|Hin]. right. by exists l'.
Qed.

Lemma disk_run_elem (methods : list (outcome (list Disk.disk)))
    (all_disks : list Disk.disk) (m : string) :
  m ∈ Disk.model <$>
      foldl (fun all_disks method =>
               match method with
               | Returned result => foldl Disk.merge_disk all_disks result
               | Raised _ => all_disks
               end) all_disks methods <->
  m ∈ Disk.model <$> all_disks \/
  exists l, Returned l ∈ methods /\ m ∈ Disk.model <$> l.
Proof.
  revert all_disks.
  induction methods as [|[l|e] methods IH]; intros all_disks; cbn [foldl].
  - split; [by left|]. intros [?|(l & Hin & _)]; [done|].
    by apply elem_of_nil in Hin.
  - rewrite IH, foldl_merge_disk_elem. split.
    + intros [[?|?]|(l' & Hin & ?)]; [by left| |].
      * right. exists l. split; [apply list_elem_of_here|done].
      * right. exists l'. split; [by apply list_elem_of_further|done].
    + intros [?|(l' & Hin & ?)]; [by left; left|].
      apply elem_of_cons in Hin as [[= ->]|Hin]; [by left; right|].
      right. by exists l'.
  - rewrite IH. split.
    + intros [?|(l' & Hin & ?)]; [by left|].
      right. exists l'. split; [by apply list_elem_of_further|done].
    + intros [?|(l' & Hin & ?)]; [by left|].
      apply elem_of_cons in Hin as [[=]|Hin]. right. by exists l'.
Qed.

(** The collected lists hold exactly the models the probes reported: a
    model is among the disks (video adapters) of the result if and only if
    one of the probes that returned lists an entity with that model.  No
    reported model is lost and none is made up. *)
Theorem collected_models_are_the_reported
    (disk_methods : list (outcome (list Disk.disk)))
    (gpu_methods : list (outcome (list Gpu.gpu))) (m : string) :
  (m ∈ Disk.model <$> Disk.get_disk_info disk_methods <->
   exists l, Returned l ∈ disk_methods /\ m ∈ Disk.model <$> l) /\
  (m ∈ Gpu.model <$> Gpu.get_gpu_info gpu_methods <->
   exists l, Returned l ∈ gpu_methods /\ m ∈ Gpu.model <$> l).
Proof.
  split.
  - unfold Disk.get_disk_info. rewrite disk_run_elem. cbn.
    rewrite elem_of_nil. tauto.
  - unfold Gpu.get_gpu_info. rewrite gpu_run_elem. cbn.
    rewrite elem_of_nil. tauto.
Qed.

Lemma gpu_run_nothing_new (methods : list (outcome (list Gpu.gpu)))
    (result : list Gpu.gpu) :
  (forall l m, Returned l ∈ methods -> m ∈ Gpu.model <$> l ->
               m ∈ Gpu.model <$> result) ->
  foldl (fun result method =>
           match method with
           | Returned method_result => foldl Gpu.merge_gpu result method_result
           | Raised _ => result
           end) result methods = result.
Proof.
  induction methods as [|[l|e] methods IH]; intros Hall; cbn [foldl]; [done| |].
  - assert (foldl Gpu.merge_gpu result l = result) as ->.
    { assert (forall m, m ∈ Gpu.model <$> l -> m ∈ Gpu.model <$> result)
        as Hl by (intros m; apply Hall, list_elem_of_here).
      clear Hall IH. induction l as [|g l IHl]; [done|]. cbn [foldl].
      rewrite merge_gpu_models_old.
      - apply IHl. intros m Hm. apply Hl. cbn. by apply list_elem_of_further.
      - apply Hl. cbn. apply list_elem_of_here. }
    apply IH. intros l' m Hin. apply Hall. by apply list_elem_of_further.
  - apply IH. intros l' m Hin. apply Hall. by apply list_elem_of_further.
Qed.

(** Consulting the video adapter probes a second time changes nothing:
    every adapter they report is matched by its model and none is added. *)
Theorem get_gpu_info_again (methods : list (outcome (list Gpu.gpu))) :
  Gpu.get_gpu_info (methods ++ methods) = Gpu.get_gpu_info methods.
Proof.
  unfold Gpu.get_gpu_info. rewrite foldl_app. apply gpu_run_nothing_new.
  intros l m Hin Hm. apply gpu_run_elem. right. by exists l.
Qed.

Lemma merge_disk_entry (all_disks : list Disk.disk) (d : Disk.disk)
    (i : nat) (e : Disk.disk) :
  all_disks !! i = Some e ->
  exists e', Disk.merge_disk all_disks d !! i = Some e' /\
             Disk.model e' = Disk.model e /\ Disk.size e' = Disk.size e /\
             (Disk.type e <> ND -> Disk.type e' = Disk.type e) /\
             (Disk.free_space e <> ND ->
              Disk.free_space e' = Disk.free_space e).
Proof.
  revert i. induction all_disks as [|x l IH]; intros i Hi; [done|].
  cbn [Disk.merge_disk].
  destruct (String.eqb (Disk.model x) (Disk.model d)).
  - destruct i as [|i]; cbn in Hi |- *; [|by exists e].
    injection Hi as ->. eexists. split; [done|]. cbn.
    split; [done|]. split; [done|]. split.
    + intros Ht. apply String.eqb_neq in Ht. rewrite Ht.
      by rewrite andb_false_r.
    + intros Hf. apply String.eqb_neq in Hf. rewrite Hf.
      by rewrite andb_false_r.
  - destruct i as [|i]; cbn in Hi |- *; [by exists e|]. by apply IH.
Qed.

Lemma disk_run_entry (methods : list (outcome (list Disk.disk)))
    (all_disks : list Disk.disk) (i : nat) (e : Disk.disk) :
  all_disks !! i = Some e ->
  exists e',
    foldl (fun all_disks method =>
             match method with
             | Returned result => foldl Disk.merge_disk all_disks result
             | Raised _ => all_disks
             end) all_disks methods !! i = Some e' /\
    Disk.model e' = Disk.model e /\ Disk.size e' = Disk.size e /\
    (Disk.type e <> ND -> Disk.type e' = Disk.type e) /\
    (Disk.free_space e <> ND -> Disk.free_space e' = Disk.free_space e).
Proof.
  assert (forall (l all_disks : list Disk.disk) e,
            all_disks !! i = Some e ->
            exists e', foldl Disk.merge_disk all_disks l !! i = Some e' /\
              Disk.model e' = Disk.model e /\ Disk.size e' = Disk.size e /\
              (Disk.type e <> ND -> Disk.type e' = Disk.type e) /\
              (Disk.free_space e <> ND ->
               Disk.free_space e' = Disk.free_space e)) as Hinner.
  { clear. induction l as [|d l IH]; intros all_disks e Hi; cbn [foldl];
      [by exists e|].
    destruct (merge_disk_entry all_disks d i e Hi)
      as (e1 & H1 & Hm1 & Hs1 & Ht1 & Hf1).
    destruct (IH _ _ H1) as (e2 & H2 & Hm2 & Hs2 & Ht2 & Hf2).
    exists e2. split; [done|]. split; [congruence|]. split; [congruence|].
    split.
    - intros Ht. rewrite Ht2; rewrite Ht1; done.
    - intros Hf. rewrite Hf2; rewrite Hf1; done. }
  revert all_disks e.
  induction methods as [|[l|x] methods IH]; intros all_disks e Hi; cbn [foldl];
    [by exists e| |by apply IH].
  destruct (Hinner l all_disks e Hi) as (e1 & H1 & Hm1 & Hs1 & Ht1 & Hf1).
  destruct (IH _ _ H1) as (e2 & H2 & Hm2 & Hs2 & Ht2 & Hf2).
  exists e2. split; [done|]. split; [congruence|]. split; [congruence|].
  split.
  - intros Ht. rewrite Ht2; rewrite Ht1; done.
  - intros Hf. rewrite Hf2; rewrite Hf1; done.
Qed.

(** A disk entry is settled where it stands: once the disk collector holds
    an entry at a position, the probes consulted afterwards leave an entry
    at that position with the same model and the same size (the size is
    that of the first probe that reported the model), and with the same
    type and free space where these were resolved. *)
Theorem disk_entries_are_kept
    (pre post : list (outcome (list Disk.disk))) (i : nat) (e : Disk.disk) :
  Disk.get_disk_info pre !! i = Some e ->
  exists e',
    Disk.get_disk_info (pre ++ post) !! i = Some e' /\
    Disk.model e' = Disk.model e /\ Disk.size e' = Disk.size e /\
    (Disk.type e <> ND -> Disk.type e' = Disk.type e) /\
    (Disk.free_space e <> ND -> Disk.free_space e' = Disk.free_space e).
Proof.
  intros Hi. unfold Disk.get_disk_info. rewrite foldl_app.
  by apply disk_run_entry.
Qed.

End MergedLists.

(** The entry of the drive of [Examples] after a second probe that reports
    the same model with another size. *)
Lemma disk_entries_are_kept_witness :
  exists e',
    Disk.get_disk_info
      ([Returned [Examples.evo_typed]] ++ [Returned [Examples.evo_free]])
      !! 0%nat = Some e' /\
    Disk.model e' = "Samsung 970 EVO" /\ Disk.size e' = "465.76 GB" /\
    (Disk.type Examples.evo_typed <> ND -> Disk.type e' = "SSD") /\
    (Disk.free_space Examples.evo_typed <> ND -> Disk.free_space e' = ND).
Proof.
  apply (disk_entries_are_kept [Returned [Examples.evo_typed]]
           [Returned [Examples.evo_free]] 0 Examples.evo_typed).
  reflexivity.
Defined.

(** * The probes *)

(** ** Text primitives *)

Section Text.

Lemma rstrip_cons (c : ascii) (s : string) :
  Py.rstrip (String c s) =
    match Py.rstrip s with
    | EmptyString => if Py.is_space c then EmptyString else String c EmptyString
    | r => String c r
    end.
Proof. reflexivity. Qed.

Lemma rstrip_idemp (s : string) : Py.rstrip (Py.rstrip s) = Py.rstrip s.
Proof.
  induction s as [|c s IH]; [done|]. rewrite rstrip_cons.
  destruct (Py.rstrip s) as [|d r] eqn:Hr.
  - destruct (Py.is_space c) eqn:Hc; [done|]. by rewrite rstrip_cons, Hc.
  - by rewrite rstrip_cons, IH.
Qed.

Lemma lstrip_head (s : string) :
  match Py.lstrip s with
  | EmptyString => True
  | String c _ => Py.is_space c = false
  end.
Proof.
  induction s as [|c s IH]; [done|]. cbn [Py.lstrip].
  by destruct (Py.is_space c) eqn:Hc.
Qed.

Lemma rstrip_head (c : ascii) (t : string) :
  Py.is_space c = false -> exists r, Py.rstrip (String c t) = String c r.
Proof.
  intros Hc. rewrite rstrip_cons, Hc. destruct (Py.rstrip t); eauto.
Qed.

(** Trimming a trimmed text changes nothing. *)
Lemma strip_idemp (s : string) : Py.strip (Py.strip s) = Py.strip s.
Proof.
  unfold Py.strip. pose proof (lstrip_head s) as Hh.
  destruct (Py.lstrip s) as [|c t]; [done|].
  destruct (rstrip_head c t Hh) as [r Hr]. rewrite Hr.
  cbn [Py.lstrip]. rewrite Hh, <- Hr. apply rstrip_idemp.
Qed.

Lemma get_after_colon (s : string) (n : nat) :
  String.get n s = Some ":"%char -> is_Some (Py.after_colon s).
Proof.
  revert n. induction s as [|c s IH]; intros n; [by destruct n|].
  cbn [Py.after_colon]. destruct (Ascii.eqb_spec c ":") as [->|Hne]; [done|].
  destruct n as [|n]; cbn [String.get]; [congruence|apply IH].
Qed.

Lemma contains_get (p s : string) :
  Py.contains p s = true ->
  exists m, forall k c, String.get k p = Some c -> String.get (k + m) s = Some c.
Proof.
  unfold Py.contains. destruct (String.index 0 p s) as [m|] eqn:Hi; [|done].
  intros _. exists m. intros k c Hk. apply String.index_correct1 in Hi.
  destruct (lt_dec k (String.length p)) as [Hlt|Hge].
  - rewrite <- (String.substring_correct1 s m (String.length p) k Hlt).
    by rewrite Hi.
  - rewrite <- Hi, String.substring_correct2 in Hk by lia. done.
Qed.

(** A text that holds a label with a colon can be split at a colon. *)
Lemma contains_after_colon (p s : string) (k : nat) :
  String.get k p = Some ":"%char -> Py.contains p s = true ->
  is_Some (Py.after_colon s).
Proof.
  intros Hk (m & Hm)%contains_get. by apply (get_after_colon s (k + m)), Hm.
Qed.

Lemma length_append (s t : string) :
  String.length (s +:+ t) = (String.length s + String.length t)%nat.
Proof.
  induction s as [|c s IH]; [done|].
  change (String c s +:+ t) with (String c (s +:+ t)). cbn. by rewrite IH.
Qed.

(** A text that ends in [" GB"] is neither empty nor the marker. *)
Lemma resolved_GB (s : string) : resolved (s +:+ " GB") = true.
Proof.
  assert (String.get (String.length s) (s +:+ " GB") = Some " "%char) as Hget.
  { pose proof (String.append_correct2 s " GB" 0) as Hg.
    change (0 + String.length s)%nat with (String.length s) in Hg.
    by rewrite <- Hg. }
  unfold resolved, Py.truthy. apply andb_true_iff. split.
  - destruct s; done.
  - apply negb_true_iff, String.eqb_neq. intros Heq.
    assert (String.length s = 13%nat) as Hlen.
    { apply (f_equal String.length) in Heq. rewrite length_append in Heq.
      cbn in Heq. lia. }
    rewrite Heq, Hlen in Hget. discriminate.
Qed.

(** The text of a count is neither empty nor the marker. *)
Lemma resolved_str_of_nat (n : nat) : resolved (Py.str_of_nat n) = true.
Proof. unfold Py.str_of_nat. by destruct (Nat.to_uint n). Qed.

End Text.

(** ** Video adapters *)

Section GpuProbeFacts.
Context `{Runtime}.

Lemma truthy_nonempty (s : string) : Py.truthy s = true -> s <> "".
Proof. by intros Hs ->. Qed.

Lemma gpus_of_rows_trimmed (lines : list string) :
  Forall (fun m => m <> "" /\ Py.strip m = m)
         (Gpu.model <$> GpuProbes.gpus_of_rows lines).
Proof.
  induction lines as [|line rest IH]; cbn [GpuProbes.gpus_of_rows];
    [constructor|].
  destruct (Py.truthy (Py.strip line)) eqn:Ht; [|done].
  constructor; [|done]. split; [by apply truthy_nonempty|apply strip_idemp].
Qed.

Lemma gpus_of_json_trimmed (data : list json) :
  Forall (fun m => m <> "" /\ Py.strip m = m)
         (Gpu.model <$> GpuProbes.gpus_of_json data).
Proof.
  induction data as [|gpu rest IH]; cbn [GpuProbes.gpus_of_json];
    [constructor|].
  destruct (_ ≫= _) as [model|e] eqn:Hm; [|constructor].
  destruct (Py.truthy model) eqn:Ht; [|done].
  constructor; [|done]. split; [by apply truthy_nonempty|].
  unfold mbind, outcome_bind in Hm.
  destruct (Ram.as_object gpu) as [fields|]; [|done].
  destruct (Ram.get fields "Name" (JStr "")); try done.
  injection Hm as <-. apply strip_idemp.
Qed.

Lemma gpu_collected_models (P : string -> Prop)
    (methods : list (outcome (list Gpu.gpu))) :
  (forall l, Returned l ∈ methods -> Forall P (Gpu.model <$> l)) ->
  Forall P (Gpu.model <$> Gpu.get_gpu_info methods).
Proof.
  intros Hall. apply Forall_forall. intros m Hm.
  apply gpu_run_elem in Hm as [Hm|(l & Hin & Hm)];
    [by apply elem_of_nil in Hm|].
  exact (proj1 (Forall_forall _ _) (Hall l Hin) m Hm).
Qed.

(** The WMIC and the PowerShell probe of the video adapters report no
    blank model: every model is a text that is not empty and has no white
    space at its ends, for every output of the two commands; and so is
    every model of the list [get_gpu_info] builds from the two probes. *)
Theorem gpu_probe_models_are_trimmed
    (is_windows : bool) (check_output : outcome string)
    (process : outcome (Z * string)) :
  let wmic := GpuProbes._get_gpu_info_wmic is_windows check_output in
  let powershell := GpuProbes._get_gpu_info_powershell is_windows process in
  Forall (fun m => m <> "" /\ Py.strip m = m) (Gpu.model <$> wmic) /\
  Forall (fun m => m <> "" /\ Py.strip m = m) (Gpu.model <$> powershell) /\
  Forall (fun m => m <> "" /\ Py.strip m = m)
         (Gpu.model <$> Gpu.get_gpu_info [Returned wmic; Returned powershell]).
Proof.
  intros wmic powershell.
  assert (Forall (fun m => m <> "" /\ Py.strip m = m) (Gpu.model <$> wmic))
    as Hwmic.
  { unfold wmic, GpuProbes._get_gpu_info_wmic.
    destruct (negb is_windows); [constructor|].
    destruct check_output; [apply gpus_of_rows_trimmed|constructor]. }
  assert (Forall (fun m => m <> "" /\ Py.strip m = m)
                 (Gpu.model <$> powershell)) as Hps.
  { unfold powershell, GpuProbes._get_gpu_info_powershell.
    destruct (negb is_windows); [constructor|].
    destruct process as [[returncode stdout]|]; [|constructor].
    destruct (_ && _); [|constructor].
    destruct (loads stdout); [apply gpus_of_json_trimmed|constructor]. }
  split; [done|]. split; [done|].
  apply gpu_collected_models. intros l Hin.
  apply elem_of_cons in Hin as [[= ->]|Hin]; [done|].
  apply elem_of_cons in Hin as [[= ->]|Hin]; [done|].
  by apply elem_of_nil in Hin.
Qed.

End GpuProbeFacts.

(** ** TPM *)

Section TpmFacts.
Import Tpm.

Lemma tpmtool_line_is_Some (result : gmap string string) (line : string) :
  is_Some (tpmtool_line result line).
Proof.
  unfold tpmtool_line.
  destruct (Py.contains "Spec Version:" line) eqn:Hv.
  { destruct (contains_after_colon "Spec Version:" line 12 eq_refl Hv)
      as [v ->]. by eexists. }
  destruct (Py.contains "TPM Enabled:" line) eqn:He.
  { destruct (contains_after_colon "TPM Enabled:" line 11 eq_refl He)
      as [v ->]. by eexists. }
  destruct (Py.contains "Manufacturer:" line) eqn:Hm.
  { destruct (contains_after_colon "Manufacturer:" line 12 eq_refl Hm)
      as [v ->]. by eexists. }
  by eexists.
Qed.

Lemma tpmtool_line_status (result result' : gmap string string)
    (line : string) :
  (exists s, result !! "status" = Some s /\
             s ∈ [ND; "Habilitado"; "Desabilitado"]) ->
  tpmtool_line result line = Some result' ->
  exists s, result' !! "status" = Some s /\
            s ∈ [ND; "Habilitado"; "Desabilitado"].
Proof.
  intros (s & Hs & Hin). unfold tpmtool_line.
  destruct (Py.contains "Spec Version:" line).
  { destruct (Py.after_colon line); [|done]. intros [= <-].
    exists s. by rewrite lookup_insert_ne. }
  destruct (Py.contains "TPM Enabled:" line).
  { destruct (Py.after_colon line); [|done]. intros [= <-].
    eexists. rewrite lookup_insert_eq. split; [done|].
    destruct (_ || _);
      [apply list_elem_of_further, list_elem_of_here|
       do 2 apply list_elem_of_further; apply list_elem_of_here]. }
  destruct (Py.contains "Manufacturer:" line).
  { destruct (Py.after_colon line); [|done]. intros [= <-].
    exists s. by rewrite lookup_insert_ne. }
  intros [= <-]. by exists s.
Qed.

Lemma tpmtool_lines_all (result : gmap string string) (lines : list string) :
  tpmtool_lines result lines =
    foldl (fun r line => default r (tpmtool_line r line)) result lines.
Proof.
  revert result. induction lines as [|line rest IH]; intros result; [done|].
  cbn [tpmtool_lines foldl].
  destruct (tpmtool_line_is_Some result line) as [r ->]. apply IH.
Qed.

(** The tpmtool probe reads every line of the output: each label it tests
    for ends in the colon the line is then split at, so the split never
    fails and the loop is never left by an exception.  The status it
    reports is the marker, "Habilitado" or "Desabilitado", and nothing
    else. *)
Theorem tpmtool_reads_every_line
    (result : gmap string string) (line : string) (lines : list string)
    (is_windows : bool) (check_output : outcome string) :
  is_Some (tpmtool_line result line) /\
  tpmtool_lines result lines =
    foldl (fun r line => default r (tpmtool_line r line)) result lines /\
  exists s, _get_tpm_info_tpmtool is_windows check_output !! "status" = Some s
            /\ s ∈ [ND; "Habilitado"; "Desabilitado"].
Proof.
  split; [apply tpmtool_line_is_Some|]. split; [apply tpmtool_lines_all|].
  assert (exists s, Scalar.tpm_schema !! "status" = Some s /\
                    s ∈ [ND; "Habilitado"; "Desabilitado"]) as Hschema.
  { exists ND. split; [done|apply list_elem_of_here]. }
  unfold _get_tpm_info_tpmtool. destruct (negb is_windows); [done|].
  destruct check_output as [output|]; [|done].
  generalize (Py.split_lines (Py.strip output)). intros ls.
  revert Hschema. generalize Scalar.tpm_schema.
  induction ls as [|l ls IH]; intros r Hr; [done|]. cbn [tpmtool_lines].
  destruct (tpmtool_line r l) as [r'|] eqn:Hl; [|done].
  apply IH. by apply (tpmtool_line_status r r' l).
Qed.

End TpmFacts.

(** ** Wi-Fi *)

Section WifiFacts.
Import Wifi.

(** The netsh probe reports a network name only for a connected adapter:
    when its [connected_ssid] is a text other than the marker and "Não
    conectado", its [adapter_status] is "Conectado". *)
Theorem netsh_ssid_only_when_connected
    (is_windows : bool) (check_output : outcome string) (v : string) :
  _get_wifi_info_netsh is_windows check_output !! "connected_ssid" = Some v ->
  v <> ND -> v <> "Não conectado" ->
  _get_wifi_info_netsh is_windows check_output !! "adapter_status"
    = Some "Conectado".
Proof.
  unfold _get_wifi_info_netsh.
  assert (Scalar.wifi_schema !! "connected_ssid" = Some v -> v <> ND ->
          v <> "Não conectado" ->
          Scalar.wifi_schema !! "adapter_status" = Some "Conectado") as Hs.
  { intros [= <-]. done. }
  destruct (negb is_windows); [done|].
  destruct check_output as [output|]; [|done].
  destruct (netsh_lines _ _) as [st|]; [|done].
  destruct (negb _); [|done].
  rewrite lookup_insert_eq. intros [= <-] _ Hv.
  rewrite lookup_insert_ne, lookup_insert_eq by done.
  destruct (String.eqb_spec (status st) "Conectado") as [->|]; done.
Qed.

Lemma netsh_lines_fail (st : scan) (lines : list string) (line : string) :
  line ∈ lines -> (forall st', netsh_line st' line = None) ->
  netsh_lines st lines = None.
Proof.
  intros Hin Hline. revert st.
  induction lines as [|l ls IH]; intros st; [by apply elem_of_nil in Hin|].
  cbn [netsh_lines]. apply elem_of_cons in Hin as [<-|Hin].
  - by rewrite Hline.
  - destruct (netsh_line st l); [by apply IH|done].
Qed.

(** One line of the netsh output that starts with a label and has no colon
    costs the whole record: the split raises, the record is written only
    after the loop, and the probe returns every field unavailable,
    whatever the other lines hold. *)
Theorem netsh_label_without_colon
    (is_windows : bool) (output line : string) :
  line ∈ Py.split_lines (Py.strip output) ->
  Py.startswith "Name" (Py.strip line) || Py.startswith "State" (Py.strip line)
    || Py.startswith "SSID" (Py.strip line) = true ->
  Py.after_colon (Py.strip line) = None ->
  _get_wifi_info_netsh is_windows (Returned output) = Scalar.wifi_schema.
Proof.
  intros Hin Hlabel Hcolon. unfold _get_wifi_info_netsh.
  destruct (negb is_windows); [done|].
  rewrite (netsh_lines_fail _ _ line Hin); [done|].
  intros st. unfold netsh_line, value. rewrite Hcolon. cbn.
  destruct (Py.startswith "Name" _); [done|].
  destruct (Py.startswith "State" _); [done|].
  by destruct (Py.startswith "SSID" _).
Qed.

End WifiFacts.

(** The motherboard and the RAM collector after a probe that has
    everything: the probe listed after it is not consulted. *)
Lemma collectors_stop_when_complete_witness :
  (Scalar.all_resolved
     (Scalar.collect Scalar.motherboard_schema [Returned Examples.board_full])
   = true /\
   Scalar.collect Scalar.motherboard_schema
     ([Returned Examples.board_full] ++ [Returned Examples.board_wmi]) =
   Scalar.collect Scalar.motherboard_schema [Returned Examples.board_full]) /\
  (Ram.complete (Ram.get_ram_info [Returned Examples.ram_wmi]) = true /\
   Ram.get_ram_info ([Returned Examples.ram_wmi] ++ [Returned Examples.ram_cim])
   = Ram.get_ram_info [Returned Examples.ram_wmi]).
Proof.
  apply (collectors_stop_when_complete Scalar.motherboard_schema
           [Returned Examples.board_full] [Returned Examples.board_wmi]
           [Returned Examples.ram_wmi] [Returned Examples.ram_cim]);
    vm_compute; reflexivity.
Defined.

(** The netsh probe on the output of a connected adapter. *)
Lemma netsh_ssid_only_when_connected_witness :
  Wifi._get_wifi_info_netsh true (Returned Examples.netsh_connected)
    !! "adapter_status" = Some "Conectado".
Proof.
  apply (netsh_ssid_only_when_connected true
           (Returned Examples.netsh_connected) "HomeNet");
    [vm_compute; reflexivity|discriminate|discriminate].
Defined.

(** The netsh probe on an output whose state line has no colon: the name
    and the network of the other lines are lost. *)
Lemma netsh_label_without_colon_witness :
  Wifi._get_wifi_info_netsh true (Returned Examples.netsh_no_colon)
    = Scalar.wifi_schema.
Proof.
  apply (netsh_label_without_colon true Examples.netsh_no_colon "    State");
    [vm_compute|vm_compute; reflexivity..].
  apply list_elem_of_further, list_elem_of_here.
Defined.

(** ** The registry probe of the motherboard and the processor probes *)

Section RegistryFacts.



Lemma split_name_brand (result : gmap string string) (full_name : string) :
  (exists b, result !! "brand" = Some b /\ b ∈ [ND; "Intel"; "AMD"]) ->
  exists b, CpuProbes.split_name result full_name !! "brand" = Some b /\
            b ∈ [ND; "Intel"; "AMD"].
Proof.
  intros (b & Hb & Hin). unfold CpuProbes.split_name.
  destruct (Py.contains "Intel" full_name).
  { exists "Intel". rewrite lookup_insert_ne, lookup_insert_eq by done.
    split; [done|]. apply list_elem_of_further, list_elem_of_here. }
  destruct (Py.contains "AMD" full_name).
  { exists "AMD". rewrite lookup_insert_ne, lookup_insert_eq by done.
    split; [done|]. do 2 apply list_elem_of_further. apply list_elem_of_here. }
  exists b. by rewrite lookup_insert_ne.
Qed.

Lemma split_name_model (result : gmap string string) (full_name : string) :
  exists m, CpuProbes.split_name result full_name !! "model" = Some m /\
            (Py.contains "Intel" full_name || Py.contains "AMD" full_name
               = true -> Py.strip m = m).
Proof.
  unfold CpuProbes.split_name.
  destruct (Py.contains "Intel" full_name).
  { eexists. rewrite lookup_insert_eq. split; [done|]. intros _.
    apply strip_idemp. }
  destruct (Py.contains "AMD" full_name).
  { eexists. rewrite lookup_insert_eq. split; [done|]. intros _.
    apply strip_idemp. }
  eexists. rewrite lookup_insert_eq. by split.
Qed.

(** The processor probes know two brands: the [brand] of the cpuinfo, the
    WMIC and the registry probe is "Intel", "AMD" or the marker, for every
    answer of the library and every output of the commands. *)
Theorem cpu_brand_is_Intel_AMD_or_unavailable
    (cpuinfo is_windows winreg : bool)
    (get_cpu_info : outcome (gmap string string))
    (check_output reg_output : outcome string) :
  (exists b, CpuProbes._get_cpu_info_cpuinfo cpuinfo get_cpu_info !! "brand"
               = Some b /\ b ∈ [ND; "Intel"; "AMD"]) /\
  (exists b, CpuProbes._get_cpu_info_wmic is_windows check_output !! "brand"
               = Some b /\ b ∈ [ND; "Intel"; "AMD"]) /\
  (exists b, CpuProbes._get_cpu_info_registry is_windows winreg reg_output
               !! "brand" = Some b /\ b ∈ [ND; "Intel"; "AMD"]).
Proof.
  assert (exists b, Scalar.cpu_schema !! "brand" = Some b /\
                    b ∈ [ND; "Intel"; "AMD"]) as Hschema.
  { exists ND. split; [done|apply list_elem_of_here]. }
  split; [|split].
  - unfold CpuProbes._get_cpu_info_cpuinfo. destruct (negb cpuinfo); [done|].
    destruct get_cpu_info as [info|]; [|done].
    destruct (info !! "brand_raw") as [full_name|]; [|done].
    destruct (Py.truthy full_name); [|done]. by apply split_name_brand.
  - unfold CpuProbes._get_cpu_info_wmic. destruct (negb is_windows); [done|].
    destruct check_output as [output|]; [|done].
    destruct (Py.split_lines _) as [|? [|row ?]]; [done..|].
    by apply split_name_brand.
  - unfold CpuProbes._get_cpu_info_registry. destruct (_ || _); [done|].
    destruct reg_output as [output|]; [|done].
    apply (foldl_invariant
             (fun r => exists b, r !! "brand" = Some b /\
                                 b ∈ [ND; "Intel"; "AMD"])); [|done].
    intros r line Hr. unfold CpuProbes.registry_line.
    destruct (_ && _); [|done].
    destruct (Py.split "REG_SZ" line) as [|? [|value ?]]; [done..|].
    by apply split_name_brand.
Qed.

End RegistryFacts.

(** ** Memory: the summary of the probes *)

Section RamProbeFacts.
Context `{Runtime}.

Lemma summary_counted (ms : list (float * Ram.ram_module)) :
  Ram.slots_used (RamProbes.summary ms) =
    match Ram.modules (RamProbes.summary ms) with
    | [] => ND
    | modules => Py.str_of_nat (length modules)
    end.
Proof. unfold RamProbes.summary. cbn. by destruct (ms.*2). Qed.

Lemma update_counted (result method_result : Ram.ram_info) :
  Ram.slots_used result =
    match Ram.modules result with
    | [] => ND
    | modules => Py.str_of_nat (length modules)
    end ->
  Ram.slots_used method_result =
    match Ram.modules method_result with
    | [] => ND
    | modules => Py.str_of_nat (length modules)
    end ->
  Ram.slots_used (Ram.update result method_result) =
    match Ram.modules (Ram.update result method_result) with
    | [] => ND
    | modules => Py.str_of_nat (length modules)
    end.
Proof.
  intros Hr Hm. cbn. rewrite Hm.
  destruct (Ram.modules method_result) as [|m ms]; [done|].
  by rewrite resolved_str_of_nat.
Qed.

(** In the RAM category [slots_used] counts the modules listed.  The
    PowerShell, the WMIC and the psutil probe each return [slots_used] as
    the number of their modules, or as the marker when they have none; and
    [get_ram_info] keeps it so: over probes that count their modules, the
    merged [slots_used] is the number of the merged modules, although the
    two fields are merged separately. *)
Theorem ram_slots_count_the_modules
    (is_windows psutil : bool) (process : outcome (Z * string))
    (check_output : outcome string) (virtual_memory : outcome Z)
    (methods : list (outcome Ram.ram_info)) :
  let counted := fun r : Ram.ram_info =>
    Ram.slots_used r =
      match Ram.modules r with
      | [] => ND
      | modules => Py.str_of_nat (length modules)
      end in
  counted (Ram._get_ram_info_powershell_cim is_windows process) /\
  counted (RamProbes._get_ram_info_wmic is_windows check_output) /\
  counted (RamProbes._get_ram_info_psutil psutil virtual_memory) /\
  (Forall (fun method => forall r, method = Returned r -> counted r) methods ->
   counted (Ram.get_ram_info methods)).
Proof.
  intros counted. unfold counted. split; [|split; [|split]].
  - unfold Ram._get_ram_info_powershell_cim.
    destruct (negb is_windows); [done|].
    destruct process as [[returncode stdout]|]; [|done].
    destruct (_ && _); [|done]. destruct (loads stdout) as [data|]; [|done].
    destruct (Ram.cim_modules _) as [ms|]; [|done].
    by destruct (ms.*2).
  - unfold RamProbes._get_ram_info_wmic. destruct (negb is_windows); [done|].
    destruct check_output as [output|]; [|done].
    destruct (Py.split_lines _); [done|]. apply summary_counted.
  - unfold RamProbes._get_ram_info_psutil. destruct (negb psutil); [done|].
    by destruct virtual_memory.
  - intros Hall. unfold Ram.get_ram_info.
    assert (Ram.slots_used Ram.initial =
              match Ram.modules Ram.initial with
              | [] => ND
              | modules => Py.str_of_nat (length modules)
              end) as Hinit by done.
    revert Hinit. generalize Ram.initial.
    induction Hall as [|[mr|e] methods Hm _ IH]; intros r Hr; [done| |].
    + pose proof (update_counted r mr Hr (Hm mr eq_refl)) as Hup.
      cbn [Ram.run]. destruct (Ram.complete (Ram.update r mr)); [done|].
      by apply IH.
    + cbn [Ram.run]. by apply IH.
Qed.

(** The psutil probe has a total and nothing else, so it never completes
    the RAM record on its own: after it, [get_ram_info] holds its total,
    no slot count and no module. *)
Theorem psutil_gives_only_the_total (total : Z) :
  Ram.get_ram_info [Returned (RamProbes._get_ram_info_psutil true
                                (Returned total))] =
    {| Ram.total := fmt2 (gib total) +:+ " GB"; Ram.slots_used := ND;
       Ram.modules := [] |} /\
  (Ram.run Ram.initial
     [Returned (RamProbes._get_ram_info_psutil true (Returned total))]).2
    = false.
Proof.
  unfold Ram.get_ram_info. cbn [RamProbes._get_ram_info_psutil negb Ram.run].
  assert (Ram.update Ram.initial
            {| Ram.total := fmt2 (gib total) +:+ " GB"; Ram.slots_used := ND;
               Ram.modules := [] |} =
          {| Ram.total := fmt2 (gib total) +:+ " GB"; Ram.slots_used := ND;
             Ram.modules := [] |}) as ->.
  { unfold Ram.update. cbn. by rewrite resolved_GB. }
  assert (Ram.complete {| Ram.total := fmt2 (gib total) +:+ " GB";
                          Ram.slots_used := ND; Ram.modules := [] |} = false)
    as ->; [|done].
  unfold Ram.complete. cbn. by rewrite andb_false_r.
Qed.

End RamProbeFacts.

(** ** Disks: the texts of the probes *)

Section DiskProbeFacts.
Context `{Runtime}.

Lemma wmic_disk_type_known (mediatype model : string) :
  Disk.wmic_disk_type mediatype model ∈ ["HDD"; "SSD"; "NVMe"].
Proof.
  unfold Disk.wmic_disk_type. cbn zeta.
  destruct (Py.contains "nvme" (Py.lower mediatype)
            || Py.contains "nvme" (Py.lower model));
    [do 2 apply list_elem_of_further; apply list_elem_of_here|].
  destruct (Py.contains "ssd" (Py.lower mediatype)
            || Py.contains "solid state" (Py.lower mediatype)
            || Py.contains "ssd" (Py.lower model));
    [apply list_elem_of_further, list_elem_of_here|apply list_elem_of_here].
Qed.

Lemma disks_of_rows_texts (indices : list (Z * string)) (lines : list string) :
  Forall (fun d => resolved (Disk.size d) = true /\
                   Disk.type d ∈ ["HDD"; "SSD"; "NVMe"])
         (Disk.disks_of_rows indices lines).
Proof.
  induction lines as [|line rest IH]; cbn [Disk.disks_of_rows]; [constructor|].
  destruct (negb _); [done|].
  destruct (Disk.disk_of_row indices line) as [d|] eqn:Hd; [|done].
  constructor; [|done]. unfold Disk.disk_of_row in Hd.
  destruct (Disk.int_field _ "size"); [|done]. cbn in Hd.
  injection Hd as <-. cbn. split; [apply resolved_GB|apply wmic_disk_type_known].
Qed.

(** The texts of the disk probes.  Every disk of the WMIC probe has a
    resolved size and a type that is "HDD", "SSD" or "NVMe"; every disk
    of the psutil probe has a resolved size and free space and no type:
    psutil never supplies the type of a disk. *)
Theorem disk_probe_texts
    (is_windows psutil : bool) (model_output logical_output : outcome string)
    (disk_partitions : outcome (list (string * outcome (Z * Z)))) :
  Forall (fun d => resolved (Disk.size d) = true /\
                   Disk.type d ∈ ["HDD"; "SSD"; "NVMe"])
         (Disk._get_disk_info_wmic is_windows model_output logical_output) /\
  Forall (fun d => resolved (Disk.size d) = true /\
                   resolved (Disk.free_space d) = true /\ Disk.type d = ND)
         (DiskProbes._get_disk_info_psutil psutil disk_partitions).
Proof.
  split.
  - unfold Disk._get_disk_info_wmic. destruct (negb is_windows); [constructor|].
    destruct model_output as [model_text|]; [|constructor].
    assert (Forall (fun d => resolved (Disk.size d) = true /\
                             Disk.type d ∈ ["HDD"; "SSD"; "NVMe"])
                   (Disk.parse_disks model_text)) as Hparse.
    { unfold Disk.parse_disks. destruct (Py.split_lines _); [constructor|].
      apply disks_of_rows_texts. }
    destruct logical_output as [logical_text|]; [|done].
    unfold Disk.assign_free_space.
    destruct (Disk.parse_disks model_text) as [|first others]; [done|].
    destruct (fpos _); [|done].
    apply Forall_cons in Hparse as [Hfirst Hothers]. by constructor.
  - unfold DiskProbes._get_disk_info_psutil. destruct (negb psutil); [constructor|].
    destruct disk_partitions as [partitions|]; [|constructor].
    induction partitions as [|[device [[total free]|e]] rest IH];
      cbn [DiskProbes.disks_of_partitions]; [constructor| |done].
    constructor; [|done]. cbn. by rewrite !resolved_GB.
Qed.

End DiskProbeFacts.

(** ** Bluetooth: the WMIC probe *)

Section BluetoothFacts.
Import Bluetooth.

Lemma first_device_named (name_index status_index : Z) (lines : list string)
    (name status : string) :
  first_device name_index status_index lines = Some (name, status) ->
  name <> "" /\ status <> "".
Proof.
  induction lines as [|line rest IH]; [done|]. cbn [first_device].
  destruct (negb _); [done|].
  destruct (device_of_row name_index status_index line) as [[n s]|] eqn:Hrow;
    [|done].
  intros [= -> ->]. unfold device_of_row in Hrow.
  destruct (_ && _); [|done].
  set (n := if name_index <? status_index then _ else _) in Hrow.
  set (s := if name_index <? status_index then _ else _) in Hrow.
  destruct (Py.truthy n) eqn:Hn; [|done]. injection Hrow as <- <-.
  split; [by apply truthy_nonempty|].
  destruct (Py.truthy s) eqn:Hs; [by apply truthy_nonempty|done].
Qed.

(** The WMIC probe of the Bluetooth category returns both fields or
    neither: its record is the unavailable record, or it holds a device
    name and a device status that are both texts that are not empty. *)
Theorem bluetooth_wmic_both_or_neither
    (is_windows : bool) (check_output : outcome string) :
  _get_bluetooth_info_wmic is_windows check_output = Scalar.bluetooth_schema \/
  exists name status,
    name <> "" /\ status <> "" /\
    _get_bluetooth_info_wmic is_windows check_output =
      <["device_status" := status]>
        (<["device_name" := name]> Scalar.bluetooth_schema).
Proof.
  unfold _get_bluetooth_info_wmic. destruct (negb is_windows); [by left|].
  destruct check_output as [output|]; [|by left].
  destruct (Py.split_lines _) as [|header [|row rows]]; [by left..|].
  destruct (first_device _ _ _) as [[name status]|] eqn:Hfirst; [|by left].
  right. exists name, status.
  by destruct (first_device_named _ _ _ _ _ Hfirst).
Qed.

End BluetoothFacts.
